(** * dfdatetime: the FAT date time codec (fat_date_time.py)

    A shallow embedding of [FATDateTime] and of the calendar helpers it
    calls, followed by the properties of the codec.

    Python integers are unbounded, so they are modelled as [Z]; [&] is
    [Z.land], [>>] is [Z.shiftr], [//] and [%] are [Z.div] and [Z.modulo]
    (both floor towards minus infinity, like Python's).  A raised
    [ValueError] is a value of [result]; a dict is a [gmap]; an attribute
    that may hold [None] is an [option]. *)

From Stdlib Require Import ZArith List Bool Lia Ascii String.
From stdpp Require Import base gmap strings.

Local Open Scope Z_scope.

(* ===================================================================== *)
(** ** Exceptions and results *)
(* ===================================================================== *)

(** The only exception the module raises is [ValueError], with a message. *)
Inductive exception : Type :=
| ValueError (msg : string).

Inductive result (A : Type) : Type :=
| Ok (a : A)
| Raise (e : exception).

Arguments Ok {A} a.
Arguments Raise {A} e.

Definition result_bind {A B : Type} (m : result A) (k : A -> result B)
  : result B :=
  match m with
  | Ok a => k a
  | Raise e => Raise e
  end.

Declare Scope result_scope.
Delimit Scope result_scope with result.
Notation "'let*' x ':=' m 'in' k" :=
  (result_bind m (fun x => k))
  (at level 10, x pattern, m at level 100, k at level 200)
  : result_scope.

Local Open Scope result_scope.

(** A [for] loop whose body may raise: the accumulator is threaded through
    the iterations and the first exception ends the loop. *)
Fixpoint for_each {A B : Type} (items : list A) (acc : B)
    (body : B -> A -> result B) : result B :=
  match items with
  | [] => Ok acc
  | x :: rest => let* acc' := body acc x in for_each rest acc' body
  end.

(** Python's [range(start, stop)]. *)
Definition range (start stop : Z) : list Z := seqZ start (stop - start).

(** [x in range(start, stop)] for an integer [x]. *)
Definition in_range (x start stop : Z) : bool :=
  (start <=? x) && (x <? stop).

(* ===================================================================== *)
(** ** definitions.py: constants *)
(* ===================================================================== *)

(** Modelled from the spec: the constants of [definitions], a module that is
    not among the sources.  The spec gives 86400 seconds per day, a factor
    of 1_000_000 for the microsecond timestamp and the 2-second
    precision. *)
Definition SECONDS_PER_DAY : Z := 86400.
Definition MICROSECONDS_PER_SECOND : Z := 1000000.

Inductive precision_value : Type :=
| PRECISION_2_SECONDS.

(* ===================================================================== *)
(** ** interface.py: calendar helpers *)
(* ===================================================================== *)

(** Modelled from the spec: [interface.DateTimeValues._IsLeapYear], the
    Gregorian leap rule that the spec attaches to [DaysInYear]. *)
Definition _IsLeapYear (year : Z) : bool :=
  ((year mod 4 =? 0) && negb (year mod 100 =? 0)) || (year mod 400 =? 0).

(** Modelled from the spec: [DaysInYear(year) -> int], 365 or 366 by the
    Gregorian leap rule. *)
Definition _GetNumberOfDaysInYear (year : Z) : Z :=
  if _IsLeapYear year then 366 else 365.

(** Modelled from the spec: the lengths of the twelve months of a year that
    is not a leap year, behind [DaysInMonth]. *)
Definition _DAYS_PER_MONTH : list Z :=
  [31; 28; 31; 30; 31; 30; 31; 31; 30; 31; 30; 31].

(** Modelled from the spec: [DaysInMonth(year, month) -> int].  The spec
    leaves a month outside 1..12 undefined and the docstring of
    [_GetNumberOfSeconds] lists the month among the values whose being out
    of bounds raises [ValueError], so such a month raises here. *)
Definition _GetDaysPerMonth (year month : Z) : result Z :=
  if negb (in_range month 1 13) then
    Raise (ValueError "Month value out of bounds.")
  else
    let days_per_month := nth (Z.to_nat (month - 1)) _DAYS_PER_MONTH 0 in
    if (month =? 2) && _IsLeapYear year then Ok (days_per_month + 1)
    else Ok days_per_month.

(** Modelled from the spec: [DayOfYear(year, month, day) -> int], the
    one-based number of the day within its year: the day of month plus the
    lengths of the months before it. *)
Definition _GetDayOfYear (year month day_of_month : Z) : result Z :=
  if negb (in_range month 1 13) then
    Raise (ValueError "Month value out of bounds.")
  else
    for_each (range 1 month) day_of_month
      (fun day_of_year past_month =>
         let* days_per_month := _GetDaysPerMonth year past_month in
         Ok (day_of_year + days_per_month)).

(** Modelled from the spec: the proleptic Gregorian day count of January 1
    of [year], measured from 1970-01-01. *)
Definition days_before_year (year : Z) : Z :=
  365 * (year - 1970)
  + (year - 1) / 4 - (year - 1) / 100 + (year - 1) / 400 - 477.

(** Modelled from the spec:
    [SecondsFromCalendarElements(year, month, day, h, m, s) -> int],
    "proleptic Gregorian day count x 86400 plus time-of-day", counted from
    the POSIX epoch. *)
Definition _GetNumberOfSecondsFromElements
    (year month day_of_month hours minutes seconds : Z) : result Z :=
  let* day_of_year := _GetDayOfYear year month day_of_month in
  let number_of_days := days_before_year year + day_of_year - 1 in
  Ok ((((number_of_days * 24 + hours) * 60) + minutes) * 60 + seconds).

(** Modelled from the spec: the decomposition of a number of seconds into
    [(days, hours, minutes, seconds)] "via integer division by
    86400/3600/60". *)
Definition _GetTimeValues (number_of_seconds : Z) : Z * Z * Z * Z :=
  let number_of_days := number_of_seconds / 86400 in
  let remainder := number_of_seconds mod 86400 in
  (number_of_days, remainder / 3600, (remainder mod 3600) / 60,
   remainder mod 60).

(* ===================================================================== *)
(** ** fat_date_time.py: decoding the packed value *)
(* ===================================================================== *)

(** Lines 74-85 of [FATDateTime._GetNumberOfSeconds]: the date fields of the
    packed value, their validation and the number of whole days.  The year
    field is passed as it is to [_GetDaysPerMonth] and to
    [_GetNumberOfDaysInYear]; only [_GetDayOfYear] receives [1980 + year]. *)
Definition _GetNumberOfSeconds_days (fat_date_time : Z) : result Z :=
  let day_of_month := Z.land fat_date_time 0x1f in
  let month := Z.land (Z.shiftr fat_date_time 5) 0x0f in
  let year := Z.land (Z.shiftr fat_date_time 9) 0x7f in
  let* days_per_month := _GetDaysPerMonth year month in
  if (day_of_month <? 1) || (days_per_month <? day_of_month) then
    Raise (ValueError "Day of month value out of bounds.")
  else
    let* number_of_days := _GetDayOfYear (1980 + year) month day_of_month in
    let number_of_days := number_of_days - 1 in
    for_each (range 0 year) number_of_days
      (fun number_of_days past_year =>
         Ok (number_of_days + _GetNumberOfDaysInYear past_year)).

(** [FATDateTime._GetNumberOfSeconds]. *)
Definition _GetNumberOfSeconds (fat_date_time : Z) : result Z :=
  let* number_of_days := _GetNumberOfSeconds_days fat_date_time in
  let fat_date_time := Z.shiftr fat_date_time 16 in
  let seconds := Z.land fat_date_time 0x1f * 2 in
  let minutes := Z.land (Z.shiftr fat_date_time 5) 0x3f in
  let hours := Z.land (Z.shiftr fat_date_time 11) 0x1f in
  if negb (in_range hours 0 24) then
    Raise (ValueError "Hours value out of bounds.")
  else if negb (in_range minutes 0 60) then
    Raise (ValueError "Minutes value out of bounds.")
  else if negb (in_range seconds 0 60) then
    Raise (ValueError "Seconds value out of bounds.")
  else
    let number_of_seconds := (((hours * 60) + minutes) * 60) + seconds in
    Ok (number_of_seconds + number_of_days * SECONDS_PER_DAY).

(* ===================================================================== *)
(** ** interface.py: from a number of days back to a date *)
(* ===================================================================== *)

(** Modelled from the spec: "an abstract [Epoch] value holding a reference
    (year, month, day) from which day-counts are measured"
    ([interface.DateTimeEpoch]). *)
Record DateTimeEpoch : Type := {
  epoch_year : Z;
  epoch_month : Z;
  epoch_day_of_month : Z
}.

(** [FATDateTimeEpoch.__init__]: 1980-01-01. *)
Definition FATDateTimeEpoch : DateTimeEpoch :=
  {| epoch_year := 1980; epoch_month := 1; epoch_day_of_month := 1 |}.

(** Modelled from the spec: the year loop of [DateFromDayOfYear] on a day
    count that is not negative, which takes whole years off it. *)
Fixpoint years_forward (fuel : nat) (year number_of_days : Z) : Z * Z :=
  match fuel with
  | O => (year, number_of_days)
  | S fuel' =>
      let days_in_year := _GetNumberOfDaysInYear year in
      if number_of_days <? days_in_year then (year, number_of_days)
      else years_forward fuel' (year + 1) (number_of_days - days_in_year)
  end.

(** Modelled from the spec: the year loop of [DateFromDayOfYear] on a
    negative day count, which walks to earlier years. *)
Fixpoint years_backward (fuel : nat) (year number_of_days : Z) : Z * Z :=
  match fuel with
  | O => (year, number_of_days)
  | S fuel' =>
      if 0 <=? number_of_days then (year, number_of_days)
      else years_backward fuel' (year - 1)
             (number_of_days + _GetNumberOfDaysInYear (year - 1))
  end.

(** Modelled from the spec: the month loop of [DateFromDayOfYear], which
    takes whole months off a day count within a year. *)
Fixpoint months_forward (fuel : nat) (year month number_of_days : Z)
  : result (Z * Z) :=
  match fuel with
  | O => Ok (month, number_of_days)
  | S fuel' =>
      let* days_per_month := _GetDaysPerMonth year month in
      if number_of_days <? days_per_month then Ok (month, number_of_days)
      else months_forward fuel' year (month + 1)
             (number_of_days - days_per_month)
  end.

(** Modelled from the spec:
    [DateFromDayOfYear(epoch_year, total_days) -> (year, month, day)], the
    inverse of the day-of-year count: the date that lies [number_of_days]
    days after the epoch.  Each year walked over consumes at least 365 days,
    so the fuel given to the year loops is never exhausted. *)
Definition _GetDateValuesWithEpoch (number_of_days : Z)
    (epoch : DateTimeEpoch) : result (Z * Z * Z) :=
  let* epoch_day_of_year :=
    _GetDayOfYear (epoch_year epoch) (epoch_month epoch)
      (epoch_day_of_month epoch) in
  let number_of_days := number_of_days + epoch_day_of_year - 1 in
  let fuel := Z.to_nat (Z.abs number_of_days / 365 + 1) in
  let '(year, day_index) :=
    if number_of_days <? 0
    then years_backward fuel (epoch_year epoch) number_of_days
    else years_forward fuel (epoch_year epoch) number_of_days in
  let* (month, day_index) := months_forward 12 year 1 day_index in
  Ok (year, month, day_index + 1).

(* ===================================================================== *)
(** ** Python built-ins on strings *)
(* ===================================================================== *)

Definition digit_char (d : Z) : ascii := ascii_of_N (48 + Z.to_N d).

(** The decimal digits of a number that is not negative, most significant
    first. *)
Fixpoint decimal_digits (fuel : nat) (n : Z) (acc : string) : string :=
  let acc' := String (digit_char (n mod 10)) acc in
  match fuel with
  | O => acc'
  | S fuel' => if n <? 10 then acc' else decimal_digits fuel' (n / 10) acc'
  end.

Definition decimal (n : Z) : string :=
  decimal_digits (Z.to_nat (Z.log2 n)) n "".

(** [str(n)] and ['{0!s}'.format(n)] for an integer. *)
Definition str_of_int (n : Z) : string :=
  if n <? 0 then String "-" (decimal (- n)) else decimal n.

Fixpoint zeros (count : nat) : string :=
  match count with
  | O => ""
  | S count' => String "0" (zeros count')
  end.

(** ['{:0Wd}'.format(n)]: zero padding after the sign, to [width]
    characters in all. *)
Definition format_0d (width : nat) (n : Z) : string :=
  let digits := decimal (Z.abs n) in
  let sign := if n <? 0 then "-" else "" in
  sign +:+
  zeros (width - String.length sign - String.length digits) +:+ digits.

(** [s[start:stop]] for indices that are not negative. *)
Definition slice (s : string) (start stop : nat) : string :=
  substring start (stop - start) s.

Definition digit_value (c : ascii) : option Z :=
  let code := Z.of_N (N_of_ascii c) in
  if in_range code 48 58 then Some (code - 48) else None.

Fixpoint parse_digits (s : string) (acc : Z) : option Z :=
  match s with
  | EmptyString => Some acc
  | String c rest =>
      match digit_value c with
      | Some d => parse_digits rest (acc * 10 + d)
      | None => None
      end
  end.

(** [int(s, 10)] on a run of decimal digits; anything else raises. *)
Definition int_of_string (s : string) (what : string) : result Z :=
  match s with
  | EmptyString => Raise (ValueError ("Unable to parse " +:+ what +:+ "."))
  | _ =>
      match parse_digits s 0 with
      | Some n => Ok n
      | None => Raise (ValueError ("Unable to parse " +:+ what +:+ "."))
      end
  end.

(** The longest prefix of decimal digits, and what follows it. *)
Fixpoint span_digits (s : string) : string * string :=
  match s with
  | EmptyString => ("", "")
  | String c rest =>
      match digit_value c with
      | Some _ => let '(digits, tail) := span_digits rest in
                  (String c digits, tail)
      | None => ("", s)
      end
  end.

Definition char_is (s : string) (index : nat) (c : ascii) : bool :=
  match String.get index s with
  | Some c' => Ascii.eqb c' c
  | None => false
  end.

(* ===================================================================== *)
(** ** interface.py: parsing a date and time string *)
(* ===================================================================== *)

(** Modelled from the spec: the date part [YYYY-MM-DD] of
    [ParseDateTimeString]. *)
Definition _CopyDateFromString (date_string : string) : result (Z * Z * Z) :=
  if (String.length date_string <? 10)%nat then
    Raise (ValueError "Date string too short.")
  else if negb (char_is date_string 4 "-" && char_is date_string 7 "-") then
    Raise (ValueError "Invalid date string.")
  else
    let* year := int_of_string (slice date_string 0 4) "year" in
    let* month := int_of_string (slice date_string 5 7) "month" in
    let* day_of_month :=
      int_of_string (slice date_string 8 10) "day of month" in
    Ok (year, month, day_of_month).

(** Modelled from the spec: the time part [hh:mm:ss[.ffffff|.fff]] followed
    by an optional zone offset [+HH:MM] or [-HH:MM].  It returns the hours,
    minutes and seconds, the fraction in microseconds when there is one and
    the zone offset in minutes when there is one. *)
Definition _CopyTimeFromString (time_string : string)
  : result (Z * Z * Z * option Z * option Z) :=
  if (String.length time_string <? 8)%nat then
    Raise (ValueError "Time string too short.")
  else if negb (char_is time_string 2 ":" && char_is time_string 5 ":") then
    Raise (ValueError "Invalid time string.")
  else
    let* hours := int_of_string (slice time_string 0 2) "hours" in
    let* minutes := int_of_string (slice time_string 3 5) "minutes" in
    let* seconds := int_of_string (slice time_string 6 8) "seconds" in
    let rest := slice time_string 8 (String.length time_string) in
    let* (microseconds, rest) :=
      if char_is rest 0 "." then
        let '(digits, tail) :=
          span_digits (slice rest 1 (String.length rest)) in
        let* fraction := int_of_string digits "fraction of seconds" in
        if (String.length digits =? 3)%nat then
          Ok (Some (fraction * 1000), tail)
        else if (String.length digits =? 6)%nat then
          Ok (Some fraction, tail)
        else Raise (ValueError "Invalid time string.")
      else Ok (None, rest) in
    match rest with
    | EmptyString => Ok (hours, minutes, seconds, microseconds, None)
    | _ =>
        if negb ((String.length rest =? 6)%nat && char_is rest 3 ":") then
          Raise (ValueError "Invalid time string.")
        else
          let* sign :=
            if char_is rest 0 "+" then Ok 1
            else if char_is rest 0 "-" then Ok (-1)
            else Raise (ValueError "Invalid time string.") in
          let* offset_hours :=
            int_of_string (slice rest 1 3) "time zone hours offset" in
          let* offset_minutes :=
            int_of_string (slice rest 4 6) "time zone minutes offset" in
          Ok (hours, minutes, seconds, microseconds,
              Some (sign * (offset_hours * 60 + offset_minutes)))
    end.

Definition set_optional (key : string) (value : option Z)
    (values : gmap string Z) : gmap string Z :=
  match value with
  | Some v => <[key := v]> values
  | None => values
  end.

(** Modelled from the spec: [ParseDateTimeString(text) -> FieldMap], which
    accepts [YYYY-MM-DD[ hh:mm:ss[.ffffff|.fff][+HH:MM|-HH:MM]]] and returns
    a mapping of named field values; a malformed string raises. *)
Definition _CopyDateTimeFromString (time_string : string)
  : result (gmap string Z) :=
  let* (year, month, day_of_month) := _CopyDateFromString time_string in
  let date_values : gmap string Z :=
    <["year" := year]> (<["month" := month]>
      (<["day_of_month" := day_of_month]> ∅)) in
  if (String.length time_string <=? 10)%nat then Ok date_values
  else if negb (char_is time_string 10 " ") then
    Raise (ValueError "Invalid time string.")
  else
    let* (hours, minutes, seconds, microseconds, time_zone_offset) :=
      _CopyTimeFromString
        (slice time_string 11 (String.length time_string)) in
    Ok (set_optional "time_zone_offset" time_zone_offset
          (set_optional "microseconds" microseconds
             (<["hours" := hours]> (<["minutes" := minutes]>
                (<["seconds" := seconds]> date_values))))).

(** [values.get(key, 0)]. *)
Definition get_or_zero (values : gmap string Z) (key : string) : Z :=
  default 0 (values !! key).

(* ===================================================================== *)
(** ** fat_date_time.py: the FATDateTime object *)
(* ===================================================================== *)

(** The attributes of an instance.  [_number_of_seconds] is [None] on an
    instance without a value. *)
Record FATDateTime : Type := {
  _number_of_seconds : option Z;
  precision : option precision_value;
  is_local_time : bool
}.

(** A method reads and writes the attributes of [self] and returns a value
    or raises; after an exception the attributes are as the method left
    them. *)
Definition method (A : Type) : Type := FATDateTime -> result A * FATDateTime.

Definition ret {A : Type} (a : A) : method A := fun self => (Ok a, self).

Definition raise {A : Type} (e : exception) : method A :=
  fun self => (Raise e, self).

Definition bind {A B : Type} (m : method A) (k : A -> method B)
  : method B :=
  fun self =>
    match m self with
    | (Ok a, self') => k a self'
    | (Raise e, self') => (Raise e, self')
    end.

(** A call of a helper that leaves the attributes alone. *)
Definition call {A : Type} (r : result A) : method A :=
  fun self => (r, self).

Definition get_number_of_seconds : method (option Z) :=
  fun self => (Ok (_number_of_seconds self), self).

Definition set_number_of_seconds (value : option Z) : method unit :=
  fun self =>
    (Ok tt, {| _number_of_seconds := value;
               precision := precision self;
               is_local_time := is_local_time self |}).

Definition set_is_local_time (value : bool) : method unit :=
  fun self =>
    (Ok tt, {| _number_of_seconds := _number_of_seconds self;
               precision := precision self;
               is_local_time := value |}).

Declare Scope method_scope.
Delimit Scope method_scope with method.
Notation "x <- m ;; k" := (bind m (fun x => k))
  (at level 100, m at next level, right associativity) : method_scope.
Notation "m ;; k" := (bind m (fun _ => k))
  (at level 100, right associativity) : method_scope.

(** The difference between Jan 1, 1980 and Jan 1, 1970 in seconds. *)
Definition _FAT_DATE_TO_POSIX_BASE : Z := 315532800.

Definition _EPOCH : DateTimeEpoch := FATDateTimeEpoch.

(** Modelled from the spec: [interface.DateTimeValues.__init__], the
    initializer of the base class; the spec gives [is_local_time] the
    default false. *)
Definition DateTimeValues__init__ : FATDateTime :=
  {| _number_of_seconds := None; precision := None;
     is_local_time := false |}.

(** [FATDateTime.__init__].  When the decoding raises, no instance
    exists. *)
Definition __init__ (fat_date_time : option Z) : result FATDateTime :=
  let* number_of_seconds :=
    match fat_date_time with
    | Some value => let* n := _GetNumberOfSeconds value in Ok (Some n)
    | None => Ok None
    end in
  let self := DateTimeValues__init__ in
  Ok {| _number_of_seconds := number_of_seconds;
        precision := Some PRECISION_2_SECONDS;
        is_local_time := is_local_time self |}.

(** [FATDateTime.CopyFromDateTimeString]. *)
Definition CopyFromDateTimeString (time_string : string) : method unit :=
  (date_time_values <- call (_CopyDateTimeFromString time_string) ;;
   let year := get_or_zero date_time_values "year" in
   let month := get_or_zero date_time_values "month" in
   let day_of_month := get_or_zero date_time_values "day_of_month" in
   let hours := get_or_zero date_time_values "hours" in
   let minutes := get_or_zero date_time_values "minutes" in
   let seconds := get_or_zero date_time_values "seconds" in
   if (year <? 1980) || (1980 + 0x7f <? year) then
     raise (ValueError
              ("Year value not supported: " +:+ str_of_int year +:+ "."))
   else
     number_of_seconds <-
       call (_GetNumberOfSecondsFromElements
               year month day_of_month hours minutes seconds) ;;
     set_number_of_seconds (Some number_of_seconds) ;;
     set_number_of_seconds
       (Some (number_of_seconds - _FAT_DATE_TO_POSIX_BASE)) ;;
     set_is_local_time false)%method.

(** [FATDateTime.CopyToStatTimeTuple]. *)
Definition CopyToStatTimeTuple : method (option Z * option Z) :=
  (number_of_seconds <- get_number_of_seconds ;;
   match number_of_seconds with
   | None => ret (None, None)
   | Some n =>
       if n <? 0 then ret (None, None)
       else
         let timestamp := n + _FAT_DATE_TO_POSIX_BASE in
         ret (Some timestamp, None)
   end)%method.

(** [FATDateTime.CopyToDateTimeString]. *)
Definition CopyToDateTimeString : method (option string) :=
  (number_of_seconds <- get_number_of_seconds ;;
   match number_of_seconds with
   | None => ret None
   | Some n =>
       let '(number_of_days, hours, minutes, seconds) := _GetTimeValues n in
       date <- call (_GetDateValuesWithEpoch number_of_days _EPOCH) ;;
       let '(year, month, day_of_month) := date in
       ret (Some (format_0d 4 year +:+ "-" +:+ format_0d 2 month +:+ "-"
                  +:+ format_0d 2 day_of_month +:+ " "
                  +:+ format_0d 2 hours +:+ ":" +:+ format_0d 2 minutes
                  +:+ ":" +:+ format_0d 2 seconds))
   end)%method.

(** [FATDateTime.GetDate]; the [except ValueError] clause turns an exception
    of the date computation into the triple of [None]. *)
Definition GetDate : method (option Z * option Z * option Z) :=
  (number_of_seconds <- get_number_of_seconds ;;
   match number_of_seconds with
   | None => ret (None, None, None)
   | Some n =>
       let '(number_of_days, _, _, _) := _GetTimeValues n in
       match _GetDateValuesWithEpoch number_of_days _EPOCH with
       | Ok (year, month, day_of_month) =>
           ret (Some year, Some month, Some day_of_month)
       | Raise (ValueError _) => ret (None, None, None)
       end
   end)%method.

(** [FATDateTime.GetPlasoTimestamp]. *)
Definition GetPlasoTimestamp : method (option Z) :=
  (number_of_seconds <- get_number_of_seconds ;;
   match number_of_seconds with
   | None => ret None
   | Some n =>
       if n <? 0 then ret None
       else ret (Some (MICROSECONDS_PER_SECOND
                       * (n + _FAT_DATE_TO_POSIX_BASE)))
   end)%method.

(** The instance that [FATDateTime()] builds. *)
Definition unset : FATDateTime :=
  {| _number_of_seconds := None; precision := Some PRECISION_2_SECONDS;
     is_local_time := false |}.

(** The operations of the public interface, and the instance each leaves
    behind. *)
Inductive operation : Type :=
| OpCopyFromDateTimeString (time_string : string)
| OpCopyToStatTimeTuple
| OpCopyToDateTimeString
| OpGetDate
| OpGetPlasoTimestamp.

Definition after (op : operation) (self : FATDateTime) : FATDateTime :=
  match op with
  | OpCopyFromDateTimeString time_string =>
      snd (CopyFromDateTimeString time_string self)
  | OpCopyToStatTimeTuple => snd (CopyToStatTimeTuple self)
  | OpCopyToDateTimeString => snd (CopyToDateTimeString self)
  | OpGetDate => snd (GetDate self)
  | OpGetPlasoTimestamp => snd (GetPlasoTimestamp self)
  end.

Definition is_readout (op : operation) : bool :=
  match op with
  | OpCopyFromDateTimeString _ => false
  | _ => true
  end.

(** An instance has no value to read out when [_number_of_seconds] is
    [None] or negative. *)
Definition no_value (self : FATDateTime) : Prop :=
  _number_of_seconds self = None
  \/ exists n, _number_of_seconds self = Some n /\ n < 0.

(** The exception of [CopyFromDateTimeString] that names the year. *)
Definition year_error (year : Z) : exception :=
  ValueError ("Year value not supported: " +:+ str_of_int year +:+ ".").

(* ===================================================================== *)
(** ** The fields of a packed value, and the day count the spec describes *)
(* ===================================================================== *)

Definition packed_day_of_month (v : Z) : Z := Z.land v 0x1f.
Definition packed_month (v : Z) : Z := Z.land (Z.shiftr v 5) 0x0f.
Definition packed_year (v : Z) : Z := Z.land (Z.shiftr v 9) 0x7f.
Definition packed_seconds (v : Z) : Z := Z.land (Z.shiftr v 16) 0x1f * 2.
Definition packed_minutes (v : Z) : Z :=
  Z.land (Z.shiftr (Z.shiftr v 16) 5) 0x3f.
Definition packed_hours (v : Z) : Z :=
  Z.land (Z.shiftr (Z.shiftr v 16) 11) 0x1f.

(** The sum of [f] over a list of integers. *)
Definition sum_over (f : Z -> Z) (items : list Z) : Z :=
  fold_right (fun x total => f x + total) 0 items.

(** The whole days since the epoch in the spec's words:
    [DayOfYear(1980 + year_offset, month, day_of_month) - 1] plus
    [DaysInYear] of the calendar years 1980, ..., 1980 + year_offset - 1. *)
Definition spec_number_of_days (v : Z) : result Z :=
  let* day_of_year :=
    _GetDayOfYear (1980 + packed_year v) (packed_month v)
      (packed_day_of_month v) in
  Ok (day_of_year - 1
      + sum_over _GetNumberOfDaysInYear
          (range 1980 (1980 + packed_year v))).

(** The day of the year of the first day of a month, less one; at month 13
    it is the length of the year. *)
Definition month_offset (leap : bool) (month : Z) : Z :=
  nth (Z.to_nat (month - 1))
    [0; 31; 59; 90; 120; 151; 181; 212; 243; 273; 304; 334; 365] 0
  + (if leap && (2 <? month) then 1 else 0).

(** The length of a month within 1..12, as [_GetDaysPerMonth] computes
    it. *)
Definition days_per_month_value (leap : bool) (month : Z) : Z :=
  let days_per_month := nth (Z.to_nat (month - 1)) _DAYS_PER_MONTH 0 in
  if (month =? 2) && leap then days_per_month + 1 else days_per_month.

(* ===================================================================== *)
(** ** Canonical date and time strings *)
(* ===================================================================== *)

(** A number below 100 on two decimal digits, one below 10000 on four. *)
Definition two_digits (n : Z) : string :=
  String (digit_char (n / 10)) (String (digit_char (n mod 10)) "").

Definition four_digits (n : Z) : string :=
  String (digit_char (n / 1000))
    (String (digit_char (n / 100 mod 10))
       (String (digit_char (n / 10 mod 10))
          (String (digit_char (n mod 10)) ""))).

(** [YYYY-MM-DD hh:mm:ss] with every field on its full width. *)
Definition canonical_string
    (year month day_of_month hours minutes seconds : Z) : string :=
  four_digits year +:+ "-" +:+ two_digits month +:+ "-"
  +:+ two_digits day_of_month +:+ " "
  +:+ two_digits hours +:+ ":" +:+ two_digits minutes
  +:+ ":" +:+ two_digits seconds.

(** The field map the parser builds from a date with a time of day. *)
Definition canonical_values
    (year month day_of_month hours minutes seconds : Z) : gmap string Z :=
  <["hours" := hours]> (<["minutes" := minutes]>
    (<["seconds" := seconds]> (<["year" := year]> (<["month" := month]>
       (<["day_of_month" := day_of_month]> ∅))))).

(** [YYYY-MM-DD], a date without a time of day, and the field map the
    parser builds from it. *)
Definition canonical_date_string (year month day_of_month : Z) : string :=
  four_digits year +:+ "-" +:+ two_digits month +:+ "-"
  +:+ two_digits day_of_month.

Definition canonical_date_values (year month day_of_month : Z)
  : gmap string Z :=
  <["year" := year]> (<["month" := month]>
    (<["day_of_month" := day_of_month]> ∅)).

(** The number of seconds from 1980-01-01 00:00:00 to a date and time of
    the Gregorian calendar. *)
Definition seconds_since_1980
    (year month day_of_month hours minutes seconds : Z) : Z :=
  (hours * 60 + minutes) * 60 + seconds
  + (days_before_year year - days_before_year 1980
     + month_offset (_IsLeapYear year) month + day_of_month - 1) * 86400.

(* ===================================================================== *)
(** * Properties *)
(* ===================================================================== *)

(** ** The fields of a packed value are bounded by their widths *)

Lemma land_ones_bounds (x k : Z) :
  0 <= k -> 0 <= Z.land x (Z.ones k) < 2 ^ k.
Proof.
  intros Hk. rewrite Z.land_ones by assumption.
  apply Z.mod_pos_bound. apply Z.pow_pos_nonneg; lia.
Qed.

Lemma packed_day_of_month_bounds (v : Z) : 0 <= packed_day_of_month v < 32.
Proof. exact (land_ones_bounds v 5 ltac:(lia)). Qed.

Lemma packed_month_bounds (v : Z) : 0 <= packed_month v < 16.
Proof. exact (land_ones_bounds (Z.shiftr v 5) 4 ltac:(lia)). Qed.

Lemma packed_year_bounds (v : Z) : 0 <= packed_year v < 128.
Proof. exact (land_ones_bounds (Z.shiftr v 9) 7 ltac:(lia)). Qed.

Lemma packed_seconds_bounds (v : Z) : 0 <= packed_seconds v <= 62.
Proof.
  unfold packed_seconds.
  pose proof (land_ones_bounds (Z.shiftr v 16) 5 ltac:(lia)) as H.
  change (Z.ones 5) with 0x1f in H. change (2 ^ 5) with 32 in H. lia.
Qed.

Lemma packed_minutes_bounds (v : Z) : 0 <= packed_minutes v < 64.
Proof.
  exact (land_ones_bounds (Z.shiftr (Z.shiftr v 16) 5) 6 ltac:(lia)).
Qed.

Lemma packed_hours_bounds (v : Z) : 0 <= packed_hours v < 32.
Proof.
  exact (land_ones_bounds (Z.shiftr (Z.shiftr v 16) 11) 5 ltac:(lia)).
Qed.

(** ** Loops that only add *)

Lemma for_each_sum (f : Z -> Z) (items : list Z) (acc : Z) :
  for_each items acc (fun total x => Ok (total + f x))
  = Ok (acc + sum_over f items).
Proof.
  revert acc. induction items as [|x rest IH]; intros acc; simpl.
  - f_equal. lia.
  - rewrite IH. f_equal. lia.
Qed.

Lemma sum_over_app (f : Z -> Z) (xs ys : list Z) :
  sum_over f (xs ++ ys) = sum_over f xs + sum_over f ys.
Proof.
  induction xs as [|x xs IH]; simpl; [reflexivity|]. rewrite IH. lia.
Qed.

Lemma range_snoc (start stop : Z) :
  start <= stop -> range start (stop + 1) = range start stop ++ [stop].
Proof.
  intros H. unfold range.
  replace (stop + 1 - start) with ((stop - start) + 1) by lia.
  rewrite seqZ_app by lia. f_equal.
  replace (start + (stop - start)) with stop by lia. reflexivity.
Qed.

Lemma sum_over_range_bounds (f : Z -> Z) (lo hi start count : Z) :
  (forall x, lo <= f x <= hi) -> 0 <= count ->
  lo * count <= sum_over f (range start (start + count)) <= hi * count.
Proof.
  intros Hf. revert count.
  apply (natlike_ind (fun n =>
    lo * n <= sum_over f (range start (start + n)) <= hi * n)).
  - replace (start + 0) with start by lia. unfold range.
    rewrite Z.sub_diag. simpl. lia.
  - intros n Hn IH. replace (start + Z.succ n) with (start + n + 1) by lia.
    rewrite range_snoc by lia. rewrite sum_over_app. simpl.
    specialize (Hf (start + n)). lia.
Qed.

(** ** The calendar helpers on a month within 1..12 *)

Lemma days_in_year_cases (year : Z) :
  _GetNumberOfDaysInYear year = (if _IsLeapYear year then 366 else 365).
Proof. reflexivity. Qed.

Lemma days_in_year_bounds (year : Z) :
  365 <= _GetNumberOfDaysInYear year <= 366.
Proof. unfold _GetNumberOfDaysInYear. destruct (_IsLeapYear year); lia. Qed.

Ltac month_cases m :=
  let H := fresh "Hm" in
  assert (H : m = 1 \/ m = 2 \/ m = 3 \/ m = 4 \/ m = 5 \/ m = 6 \/ m = 7 \/
              m = 8 \/ m = 9 \/ m = 10 \/ m = 11 \/ m = 12) by lia;
  repeat (destruct H as [H|H]); subst m.

Lemma for_each_sum_ok (g : Z -> result Z) (h : Z -> Z) (items : list Z)
    (acc : Z) :
  Forall (fun x => g x = Ok (h x)) items ->
  for_each items acc (fun total x => let* v := g x in Ok (total + v))
  = Ok (acc + sum_over h items).
Proof.
  intros Hall. revert acc.
  induction Hall as [|x rest Hx _ IH]; intros acc; simpl.
  - f_equal. lia.
  - rewrite Hx. simpl. rewrite IH. f_equal. lia.
Qed.

Lemma in_range_true (x start stop : Z) :
  start <= x < stop -> in_range x start stop = true.
Proof. intros H. unfold in_range. apply andb_true_intro. lia. Qed.

Lemma in_range_false (x start stop : Z) :
  x < start \/ stop <= x -> in_range x start stop = false.
Proof. intros H. unfold in_range. apply andb_false_iff. lia. Qed.

Lemma _GetDaysPerMonth_ok (year month : Z) :
  1 <= month <= 12 ->
  _GetDaysPerMonth year month
  = Ok (days_per_month_value (_IsLeapYear year) month).
Proof.
  intros H. unfold _GetDaysPerMonth, days_per_month_value.
  rewrite in_range_true by lia. simpl.
  destruct ((month =? 2) && _IsLeapYear year); reflexivity.
Qed.

Lemma _GetDaysPerMonth_raises (year month : Z) :
  month < 1 \/ 12 < month ->
  _GetDaysPerMonth year month
  = Raise (ValueError "Month value out of bounds.").
Proof.
  intros H. unfold _GetDaysPerMonth.
  rewrite in_range_false by lia. reflexivity.
Qed.

Lemma days_per_month_value_offsets (leap : bool) (month : Z) :
  1 <= month <= 12 ->
  days_per_month_value leap month
  = month_offset leap (month + 1) - month_offset leap month.
Proof.
  intros H. month_cases month; destruct leap; vm_compute; reflexivity.
Qed.

Lemma month_offset_sum (leap : bool) (month : Z) :
  1 <= month <= 12 ->
  sum_over (days_per_month_value leap) (range 1 month)
  = month_offset leap month.
Proof.
  intros H. month_cases month; destruct leap; vm_compute; reflexivity.
Qed.

Lemma month_offset_bounds (leap : bool) (month : Z) :
  1 <= month <= 12 -> 0 <= month_offset leap month <= 335.
Proof.
  intros H. month_cases month; destruct leap; vm_compute;
    split; discriminate.
Qed.

Lemma days_per_month_value_bounds (leap : bool) (month : Z) :
  1 <= month <= 12 -> 28 <= days_per_month_value leap month <= 31.
Proof.
  intros H. month_cases month; destruct leap; vm_compute;
    split; discriminate.
Qed.

Lemma month_offset_13 (year : Z) :
  month_offset (_IsLeapYear year) 13 = _GetNumberOfDaysInYear year.
Proof.
  unfold _GetNumberOfDaysInYear. destruct (_IsLeapYear year); reflexivity.
Qed.

Lemma _GetDayOfYear_eq (year month day_of_month : Z) :
  1 <= month <= 12 ->
  _GetDayOfYear year month day_of_month
  = Ok (day_of_month + month_offset (_IsLeapYear year) month).
Proof.
  intros H. unfold _GetDayOfYear. rewrite in_range_true by lia. simpl.
  rewrite (for_each_sum_ok (_GetDaysPerMonth year)
             (days_per_month_value (_IsLeapYear year))).
  - rewrite month_offset_sum by assumption. reflexivity.
  - unfold range. apply Forall_seqZ. intros m Hm.
    apply _GetDaysPerMonth_ok. lia.
Qed.

Lemma _GetDayOfYear_raises (year month day_of_month : Z) :
  month < 1 \/ 12 < month ->
  _GetDayOfYear year month day_of_month
  = Raise (ValueError "Month value out of bounds.").
Proof.
  intros H. unfold _GetDayOfYear.
  rewrite in_range_false by lia. reflexivity.
Qed.

(** ** What the decoding computes *)

Lemma _GetNumberOfSeconds_days_inv (v number_of_days : Z) :
  _GetNumberOfSeconds_days v = Ok number_of_days ->
  1 <= packed_month v <= 12
  /\ 1 <= packed_day_of_month v
       <= days_per_month_value (_IsLeapYear (packed_year v)) (packed_month v)
  /\ number_of_days
     = packed_day_of_month v
       + month_offset (_IsLeapYear (1980 + packed_year v)) (packed_month v)
       - 1
       + sum_over _GetNumberOfDaysInYear (range 0 (packed_year v)).
Proof.
  unfold _GetNumberOfSeconds_days.
  fold (packed_day_of_month v) (packed_month v) (packed_year v).
  destruct (Z_lt_le_dec (packed_month v) 1) as [Hlo|Hlo].
  { rewrite _GetDaysPerMonth_raises by lia. discriminate. }
  destruct (Z_lt_le_dec 12 (packed_month v)) as [Hhi|Hhi].
  { rewrite _GetDaysPerMonth_raises by lia. discriminate. }
  rewrite _GetDaysPerMonth_ok by lia. simpl.
  destruct ((packed_day_of_month v <? 1)
            || (days_per_month_value (_IsLeapYear (packed_year v))
                  (packed_month v) <? packed_day_of_month v)) eqn:Hday.
  { discriminate. }
  apply orb_false_elim in Hday. destruct Hday as [Hd1 Hd2].
  rewrite _GetDayOfYear_eq by lia. simpl. rewrite for_each_sum.
  intros Heq. injection Heq as <-. lia.
Qed.

Lemma _GetNumberOfSeconds_days_ok (v days_per_month : Z) :
  _GetDaysPerMonth (packed_year v) (packed_month v) = Ok days_per_month ->
  1 <= packed_day_of_month v <= days_per_month ->
  exists number_of_days, _GetNumberOfSeconds_days v = Ok number_of_days.
Proof.
  intros Hdpm Hday. unfold _GetNumberOfSeconds_days.
  fold (packed_day_of_month v) (packed_month v) (packed_year v).
  rewrite Hdpm. simpl.
  assert (Hm : 1 <= packed_month v <= 12).
  { destruct (Z_lt_le_dec (packed_month v) 1) as [Hlo|Hlo];
      [rewrite _GetDaysPerMonth_raises in Hdpm by lia; discriminate|].
    destruct (Z_lt_le_dec 12 (packed_month v)) as [Hhi|Hhi];
      [rewrite _GetDaysPerMonth_raises in Hdpm by lia; discriminate|].
    lia. }
  replace ((packed_day_of_month v <? 1)
           || (days_per_month <? packed_day_of_month v)) with false
    by (symmetry; apply orb_false_intro; lia).
  rewrite _GetDayOfYear_eq by assumption. simpl. rewrite for_each_sum.
  eexists. reflexivity.
Qed.

Lemma _GetNumberOfSeconds_eq (v number_of_days : Z) :
  _GetNumberOfSeconds_days v = Ok number_of_days ->
  _GetNumberOfSeconds v
  = if negb (in_range (packed_hours v) 0 24) then
      Raise (ValueError "Hours value out of bounds.")
    else if negb (in_range (packed_minutes v) 0 60) then
      Raise (ValueError "Minutes value out of bounds.")
    else if negb (in_range (packed_seconds v) 0 60) then
      Raise (ValueError "Seconds value out of bounds.")
    else
      Ok (((packed_hours v * 60 + packed_minutes v) * 60 + packed_seconds v)
          + number_of_days * 86400).
Proof. intros H. unfold _GetNumberOfSeconds. rewrite H. reflexivity. Qed.

Lemma in_range_spec (x start stop : Z) :
  in_range x start stop = true <-> start <= x < stop.
Proof. unfold in_range. rewrite andb_true_iff. lia. Qed.

Lemma _GetNumberOfSeconds_inv (v n : Z) :
  _GetNumberOfSeconds v = Ok n ->
  exists number_of_days,
    _GetNumberOfSeconds_days v = Ok number_of_days
    /\ packed_hours v <= 23 /\ packed_minutes v <= 59
    /\ packed_seconds v <= 59
    /\ n = ((packed_hours v * 60 + packed_minutes v) * 60 + packed_seconds v)
           + number_of_days * 86400.
Proof.
  intros H.
  destruct (_GetNumberOfSeconds_days v) as [nd|e] eqn:Hdays.
  2:{ unfold _GetNumberOfSeconds in H. rewrite Hdays in H. discriminate. }
  rewrite (_GetNumberOfSeconds_eq v nd Hdays) in H.
  exists nd. split; [reflexivity|].
  destruct (in_range (packed_hours v) 0 24) eqn:Hh;
    cbn [negb] in H; [|discriminate].
  destruct (in_range (packed_minutes v) 0 60) eqn:Hm;
    cbn [negb] in H; [|discriminate].
  destruct (in_range (packed_seconds v) 0 60) eqn:Hs;
    cbn [negb] in H; [|discriminate].
  apply in_range_spec in Hh, Hm, Hs.
  injection H as <-. lia.
Qed.

(** ** The scenarios of the spec *)

Example decode_epoch : _GetNumberOfSeconds 0x21 = Ok 0.
Proof. reflexivity. Qed.

Example epoch_string :
  CopyToDateTimeString
    {| _number_of_seconds := Some 0; precision := Some PRECISION_2_SECONDS;
       is_local_time := false |}
  = (Ok (Some "1980-01-01 00:00:00"%string),
     {| _number_of_seconds := Some 0; precision := Some PRECISION_2_SECONDS;
        is_local_time := false |}).
Proof. vm_compute. reflexivity. Qed.

Example string_2010 :
  snd (CopyFromDateTimeString "2010-06-15 12:30:45" unset)
  = {| _number_of_seconds := Some 961072245;
       precision := Some PRECISION_2_SECONDS; is_local_time := false |}.
Proof. vm_compute. reflexivity. Qed.

Example string_1979 :
  fst (CopyFromDateTimeString "1979-01-01" unset)
  = Raise (ValueError "Year value not supported: 1979.").
Proof. vm_compute. reflexivity. Qed.

(** ** The time fields of a packed value *)

(** Once the date fields have given a number of days, the time fields are
    checked in the order hours, minutes, seconds. *)
Lemma _GetNumberOfSeconds_time_fields (v number_of_days : Z) :
  _GetNumberOfSeconds_days v = Ok number_of_days ->
  (23 < packed_hours v ->
   _GetNumberOfSeconds v = Raise (ValueError "Hours value out of bounds."))
  /\ (packed_hours v <= 23 -> 59 < packed_minutes v ->
      _GetNumberOfSeconds v
      = Raise (ValueError "Minutes value out of bounds."))
  /\ (packed_hours v <= 23 -> packed_minutes v <= 59 ->
      59 < packed_seconds v ->
      _GetNumberOfSeconds v
      = Raise (ValueError "Seconds value out of bounds."))
  /\ (packed_hours v <= 23 -> packed_minutes v <= 59 ->
      packed_seconds v <= 59 ->
      exists n, _GetNumberOfSeconds v = Ok n)
  /\ ((exists e, _GetNumberOfSeconds v = Raise e)
      <-> 23 < packed_hours v \/ 59 < packed_minutes v
          \/ 59 < packed_seconds v).
Proof.
  intros Hnd.
  rewrite (_GetNumberOfSeconds_eq v number_of_days Hnd).
  pose proof (packed_hours_bounds v) as Hh.
  pose proof (packed_minutes_bounds v) as Hm.
  pose proof (packed_seconds_bounds v) as Hs.
  destruct (Z_le_gt_dec (packed_hours v) 23) as [Hh'|Hh'].
  2:{ rewrite (in_range_false (packed_hours v)) by lia. cbn [negb].
      repeat split; intros; try lia; try reflexivity;
        eexists; reflexivity. }
  rewrite (in_range_true (packed_hours v)) by lia. cbn [negb].
  destruct (Z_le_gt_dec (packed_minutes v) 59) as [Hm'|Hm'].
  2:{ rewrite (in_range_false (packed_minutes v)) by lia. cbn [negb].
      repeat split; intros; try lia; try reflexivity;
        eexists; reflexivity. }
  rewrite (in_range_true (packed_minutes v)) by lia. cbn [negb].
  destruct (Z_le_gt_dec (packed_seconds v) 59) as [Hs'|Hs'].
  2:{ rewrite (in_range_false (packed_seconds v)) by lia. cbn [negb].
      repeat split; intros; try lia; try reflexivity;
        eexists; reflexivity. }
  rewrite (in_range_true (packed_seconds v)) by lia. cbn [negb].
  repeat split; intros; try lia.
  - eexists. reflexivity.
  - destruct H as [e He]. discriminate.
Qed.

(** C7: the packed value of 2080-02-29 00:00:00 (year field 100, month 2,
    day 29) has a valid day of month, 2080 being a leap year whose February
    has 29 days, and its hours, minutes and seconds are 0, in range; yet
    the decoding raises the error on the day of month, because it asks for
    the length of February in the year 100, which is 28. *)
Theorem C7_leap_day_of_2080_rejected :
  packed_year 0xC85D = 100 /\ packed_month 0xC85D = 2
  /\ packed_day_of_month 0xC85D = 29
  /\ packed_hours 0xC85D = 0 /\ packed_minutes 0xC85D = 0
  /\ packed_seconds 0xC85D = 0
  /\ _IsLeapYear (1980 + 100) = true
  /\ _GetDaysPerMonth (1980 + packed_year 0xC85D) (packed_month 0xC85D)
     = Ok 29
  /\ _GetDaysPerMonth (packed_year 0xC85D) (packed_month 0xC85D) = Ok 28
  /\ _GetNumberOfSeconds 0xC85D
     = Raise (ValueError "Day of month value out of bounds.").
Proof. vm_compute. repeat split; reflexivity. Qed.

(** ** The decoded number of seconds is not negative *)

Lemma sum_days_in_years_bounds (count : Z) :
  0 <= count ->
  365 * count <= sum_over _GetNumberOfDaysInYear (range 0 count)
  <= 366 * count.
Proof.
  intros H.
  exact (sum_over_range_bounds _GetNumberOfDaysInYear 365 366 0 count
           days_in_year_bounds H).
Qed.

Lemma _GetNumberOfSeconds_days_nonneg (v number_of_days : Z) :
  _GetNumberOfSeconds_days v = Ok number_of_days -> 0 <= number_of_days.
Proof.
  intros H. apply _GetNumberOfSeconds_days_inv in H.
  destruct H as (Hm & Hd & ->).
  pose proof (month_offset_bounds (_IsLeapYear (1980 + packed_year v))
                (packed_month v) Hm).
  pose proof (packed_year_bounds v).
  pose proof (sum_days_in_years_bounds (packed_year v)). lia.
Qed.

(** C8: for every packed 32-bit value whose decoding succeeds, the decoded
    number of seconds is greater than or equal to zero. *)
Theorem C8_elapsed_seconds_nonneg (v n : Z) :
  0 <= v < 2 ^ 32 -> _GetNumberOfSeconds v = Ok n -> 0 <= n.
Proof.
  intros _ H. apply _GetNumberOfSeconds_inv in H.
  destruct H as (nd & Hdays & _ & _ & _ & ->).
  apply _GetNumberOfSeconds_days_nonneg in Hdays.
  pose proof (packed_hours_bounds v). pose proof (packed_minutes_bounds v).
  pose proof (packed_seconds_bounds v). nia.
Qed.

(** 2107-12-31 23:59:58, the last value the format holds. *)
Lemma C8_elapsed_seconds_nonneg_witness :
  0 <= 0xBF7DFF9F < 2 ^ 32
  /\ _GetNumberOfSeconds 0xBF7DFF9F = Ok 4039286398
  /\ 0 <= 4039286398.
Proof.
  assert (Hv : 0 <= 0xBF7DFF9F < 2 ^ 32) by lia.
  assert (Hn : _GetNumberOfSeconds 0xBF7DFF9F = Ok 4039286398)
    by (vm_compute; reflexivity).
  split; [exact Hv|]. split; [exact Hn|].
  exact (C8_elapsed_seconds_nonneg 0xBF7DFF9F 4039286398 Hv Hn).
Defined.

(** ** Checking a property on every number below a bound *)

Lemma Forall_range_check (P : Z -> Prop) (check : Z -> bool) (count : Z) :
  (forall n, check n = true -> P n) ->
  forallb check (seqZ 0 count) = true ->
  forall n, 0 <= n < count -> P n.
Proof.
  intros Hcheck Hall n Hn. apply Hcheck.
  rewrite forallb_forall in Hall. apply Hall.
  apply list_elem_of_In. apply elem_of_seqZ. lia.
Qed.

(** ** The whole days of the decoding *)

(** C1: at the packed value of 2081-01-01 (year field 101, month 1, day 1)
    the decoding counts 36890 whole days, one fewer than the 36891 of the
    spec's formula (the day of the year less one plus the lengths of the
    calendar years 1980..2080): the loop asks for the length of year 100,
    which is not a leap year, where the calendar year 2080 is one. *)
Theorem C1_days_of_2081_01_01 :
  packed_year 0xCA21 = 101 /\ packed_month 0xCA21 = 1
  /\ packed_day_of_month 0xCA21 = 1
  /\ _GetNumberOfSeconds_days 0xCA21 = Ok 36890
  /\ spec_number_of_days 0xCA21 = Ok 36891
  /\ _GetNumberOfSeconds 0xCA21 = Ok (36890 * 86400)
  /\ _IsLeapYear 100 = false /\ _IsLeapYear (1980 + 100) = true.
Proof. vm_compute. repeat split; reflexivity. Qed.

(** The lengths of the years that the loop of the decoding adds up, against
    those of the calendar years since 1980: the same up to the year field
    100 and again from 121, one day short from 101 to 120. *)
Lemma year_lengths_of_year_field (year : Z) :
  0 <= year < 128 ->
  sum_over _GetNumberOfDaysInYear (range 0 year)
  = sum_over _GetNumberOfDaysInYear (range 1980 (1980 + year))
    - (if (100 <? year) && (year <? 121) then 1 else 0).
Proof.
  apply (Forall_range_check
           (fun year =>
              sum_over _GetNumberOfDaysInYear (range 0 year)
              = sum_over _GetNumberOfDaysInYear (range 1980 (1980 + year))
                - (if (100 <? year) && (year <? 121) then 1 else 0))
           (fun year =>
              sum_over _GetNumberOfDaysInYear (range 0 year)
              =? sum_over _GetNumberOfDaysInYear
                   (range 1980 (1980 + year))
                 - (if (100 <? year) && (year <? 121) then 1 else 0))).
  - intros k. apply Z.eqb_eq.
  - vm_compute. reflexivity.
Qed.

(** ** Readouts *)

Lemma CopyToStatTimeTuple_eq (self : FATDateTime) :
  CopyToStatTimeTuple self
  = (Ok match _number_of_seconds self with
        | None => (None, None)
        | Some n =>
            if n <? 0 then (None, None)
            else (Some (n + _FAT_DATE_TO_POSIX_BASE), None)
        end, self).
Proof.
  unfold CopyToStatTimeTuple, bind, get_number_of_seconds, ret.
  destruct (_number_of_seconds self) as [n|]; [|reflexivity].
  destruct (n <? 0); reflexivity.
Qed.

Lemma GetPlasoTimestamp_eq (self : FATDateTime) :
  GetPlasoTimestamp self
  = (Ok match _number_of_seconds self with
        | None => None
        | Some n =>
            if n <? 0 then None
            else Some (MICROSECONDS_PER_SECOND
                       * (n + _FAT_DATE_TO_POSIX_BASE))
        end, self).
Proof.
  unfold GetPlasoTimestamp, bind, get_number_of_seconds, ret.
  destruct (_number_of_seconds self) as [n|]; [|reflexivity].
  destruct (n <? 0); reflexivity.
Qed.

Lemma CopyToDateTimeString_state (self : FATDateTime) :
  snd (CopyToDateTimeString self) = self.
Proof.
  unfold CopyToDateTimeString, bind, get_number_of_seconds, ret, call.
  destruct (_number_of_seconds self) as [n|]; [|reflexivity].
  destruct (_GetTimeValues n) as [[[days hours] minutes] seconds].
  destruct (_GetDateValuesWithEpoch days _EPOCH) as [[[y m] d]|e];
    reflexivity.
Qed.

Lemma GetDate_state (self : FATDateTime) : snd (GetDate self) = self.
Proof.
  unfold GetDate, bind, get_number_of_seconds, ret.
  destruct (_number_of_seconds self) as [n|]; [|reflexivity].
  destruct (_GetTimeValues n) as [[[days hours] minutes] seconds].
  destruct (_GetDateValuesWithEpoch days _EPOCH) as [[[y m] d]|[msg]];
    reflexivity.
Qed.

(** C4: on the instance decoded from the packed value of 1980-01-01
    00:00:00, whose number of seconds is 0, [CopyToStatTimeTuple] returns
    the seconds 315532800 paired with [None], not with the integer 0. *)
Theorem C4_stat_time_tuple_of_epoch :
  exists self,
    __init__ (Some 0x21) = Ok self
    /\ _number_of_seconds self = Some 0
    /\ CopyToStatTimeTuple self = (Ok (Some 315532800, None), self).
Proof. eexists. repeat split; reflexivity. Qed.

(** C9: on the instance constructed with no input every readout returns
    its "no value" sentinel without raising, and leaves the instance as it
    is. *)
Theorem C9_unset_readouts :
  exists self,
    __init__ None = Ok self
    /\ _number_of_seconds self = None
    /\ CopyToDateTimeString self = (Ok None, self)
    /\ CopyToStatTimeTuple self = (Ok (None, None), self)
    /\ GetDate self = (Ok (None, None, None), self)
    /\ GetPlasoTimestamp self = (Ok None, self).
Proof. eexists. repeat split; reflexivity. Qed.

(** C10: [CopyToStatTimeTuple] and [GetPlasoTimestamp] return their
    sentinels under the same condition, the number of seconds being unset
    or negative, and when the first returns a pair whose first element is
    [s] the second returns [1000000 * s]. *)
Theorem C10_stat_tuple_and_plaso_agree (self : FATDateTime) :
  (fst (CopyToStatTimeTuple self) = Ok (None, None) <-> no_value self)
  /\ (fst (GetPlasoTimestamp self) = Ok None <-> no_value self)
  /\ (forall s r,
        fst (CopyToStatTimeTuple self) = Ok (Some s, r) ->
        fst (GetPlasoTimestamp self) = Ok (Some (1000000 * s))).
Proof.
  rewrite CopyToStatTimeTuple_eq, GetPlasoTimestamp_eq. unfold no_value.
  cbn [fst]. destruct (_number_of_seconds self) as [n|].
  - destruct (Z.ltb_spec n 0) as [Hn|Hn].
    + repeat split; intros; try discriminate; try reflexivity;
        right; exists n; (split; [reflexivity|assumption]).
    + repeat split.
      * discriminate.
      * intros [H|(n' & H & Hlt)]; [discriminate|].
        injection H as <-. lia.
      * discriminate.
      * intros [H|(n' & H & Hlt)]; [discriminate|].
        injection H as <-. lia.
      * intros s r H. injection H as <- <-. reflexivity.
  - repeat split; intros; try discriminate; try reflexivity;
      left; reflexivity.
Qed.

(** ** Copying from a date and time string *)

Lemma CopyFromDateTimeString_eq (time_string : string)
    (self : FATDateTime) :
  CopyFromDateTimeString time_string self
  = match _CopyDateTimeFromString time_string with
    | Raise e => (Raise e, self)
    | Ok values =>
        let year := get_or_zero values "year" in
        if (year <? 1980) || (1980 + 127 <? year) then
          (Raise (year_error year), self)
        else
          match _GetNumberOfSecondsFromElements year
                  (get_or_zero values "month")
                  (get_or_zero values "day_of_month")
                  (get_or_zero values "hours")
                  (get_or_zero values "minutes")
                  (get_or_zero values "seconds") with
          | Raise e => (Raise e, self)
          | Ok n =>
              (Ok tt,
               {| _number_of_seconds := Some (n - 315532800);
                  precision := precision self;
                  is_local_time := false |})
          end
    end.
Proof.
  unfold CopyFromDateTimeString, bind, call.
  destruct (_CopyDateTimeFromString time_string) as [values|e];
    [|reflexivity].
  cbv zeta.
  destruct ((get_or_zero values "year" <? 1980)
            || (1980 + 0x7f <? get_or_zero values "year")) eqn:Hyear.
  - reflexivity.
  - destruct (_GetNumberOfSecondsFromElements _ _ _ _ _ _); reflexivity.
Qed.

Lemma _GetNumberOfSecondsFromElements_raises
    (year month day_of_month hours minutes seconds : Z) (e : exception) :
  _GetNumberOfSecondsFromElements year month day_of_month hours minutes
    seconds = Raise e ->
  e = ValueError "Month value out of bounds.".
Proof.
  unfold _GetNumberOfSecondsFromElements.
  destruct (Z_lt_le_dec month 1) as [Hlo|Hlo].
  { rewrite _GetDayOfYear_raises by lia. intros H. injection H as <-.
    reflexivity. }
  destruct (Z_lt_le_dec 12 month) as [Hhi|Hhi].
  { rewrite _GetDayOfYear_raises by lia. intros H. injection H as <-.
    reflexivity. }
  rewrite _GetDayOfYear_eq by lia. discriminate.
Qed.

Lemma Raise_inj (A : Type) (e1 e2 : exception) :
  @Raise A e1 = Raise e2 -> e1 = e2.
Proof. intros H. injection H as H. exact H. Qed.

Lemma year_error_not_month (year : Z) :
  year_error year <> ValueError "Month value out of bounds.".
Proof. unfold year_error. cbn [String.append]. discriminate. Qed.

(** C3, as amended: after a successful [CopyFromDateTimeString], and after
    construction from a raw packed value, [is_local_time] is false. *)
Theorem C3_is_local_time_false (self' : FATDateTime) :
  (exists time_string self,
      CopyFromDateTimeString time_string self = (Ok tt, self'))
  \/ (exists v, __init__ (Some v) = Ok self') ->
  is_local_time self' = false.
Proof.
  intros [(time_string & self & H)|(v & H)].
  - rewrite CopyFromDateTimeString_eq in H.
    destruct (_CopyDateTimeFromString time_string) as [values|e];
      [|discriminate].
    cbv zeta in H.
    destruct ((_ <? 1980) || _); [discriminate|].
    destruct (_GetNumberOfSecondsFromElements _ _ _ _ _ _);
      [|discriminate].
    injection H as <-. reflexivity.
  - unfold __init__ in H.
    destruct (_GetNumberOfSeconds v); [|discriminate].
    injection H as <-. reflexivity.
Qed.

Lemma C3_is_local_time_false_witness :
  CopyFromDateTimeString "2010-06-15 12:30:45" unset
  = (Ok tt, {| _number_of_seconds := Some 961072245;
               precision := Some PRECISION_2_SECONDS;
               is_local_time := false |})
  /\ is_local_time {| _number_of_seconds := Some 961072245;
                      precision := Some PRECISION_2_SECONDS;
                      is_local_time := false |} = false.
Proof.
  assert (H : CopyFromDateTimeString "2010-06-15 12:30:45" unset
              = (Ok tt, {| _number_of_seconds := Some 961072245;
                           precision := Some PRECISION_2_SECONDS;
                           is_local_time := false |}))
    by (vm_compute; reflexivity).
  split; [exact H|].
  apply C3_is_local_time_false. left.
  exists "2010-06-15 12:30:45"%string, unset. exact H.
Defined.

(** C3 as stated fails: [CopyFromDateTimeString] succeeds on the instance
    constructed with no input and leaves [is_local_time] false, not true. *)
Lemma C3_counterexample :
  exists self self',
    __init__ None = Ok self
    /\ CopyFromDateTimeString "2010-06-15 12:30:45" self = (Ok tt, self')
    /\ is_local_time self' <> true.
Proof.
  exists unset. eexists. split; [reflexivity|].
  split; [vm_compute; reflexivity|]. discriminate.
Qed.

(** C6: once the string is parsed, [CopyFromDateTimeString] raises the
    exception that names the year exactly when the year is below 1980 or
    above 1980 + 127, leaving the instance as it was; when the year is in
    range and the seconds from the calendar elements are [n], it sets the
    number of seconds to [n - 315532800]. *)
Theorem C6_year_window (time_string : string) (values : gmap string Z)
    (self : FATDateTime) :
  _CopyDateTimeFromString time_string = Ok values ->
  (fst (CopyFromDateTimeString time_string self)
   = Raise (year_error (get_or_zero values "year"))
   <-> get_or_zero values "year" < 1980
       \/ 1980 + 127 < get_or_zero values "year")
  /\ (get_or_zero values "year" < 1980
      \/ 1980 + 127 < get_or_zero values "year" ->
      snd (CopyFromDateTimeString time_string self) = self)
  /\ (1980 <= get_or_zero values "year" <= 1980 + 127 ->
      forall n,
        _GetNumberOfSecondsFromElements (get_or_zero values "year")
          (get_or_zero values "month") (get_or_zero values "day_of_month")
          (get_or_zero values "hours") (get_or_zero values "minutes")
          (get_or_zero values "seconds") = Ok n ->
        fst (CopyFromDateTimeString time_string self) = Ok tt
        /\ _number_of_seconds (snd (CopyFromDateTimeString time_string self))
           = Some (n - 315532800)).
Proof.
  intros Hparse. rewrite CopyFromDateTimeString_eq, Hparse. cbv zeta.
  set (year := get_or_zero values "year").
  destruct (Z_lt_le_dec year 1980) as [Hlo|Hlo].
  { replace ((year <? 1980) || (1980 + 127 <? year)) with true
      by (symmetry; apply orb_true_iff; lia).
    repeat split; intros; try reflexivity; lia. }
  destruct (Z_lt_le_dec (1980 + 127) year) as [Hhi|Hhi].
  { replace ((year <? 1980) || (1980 + 127 <? year)) with true
      by (symmetry; apply orb_true_iff; lia).
    repeat split; intros; try reflexivity; lia. }
  replace ((year <? 1980) || (1980 + 127 <? year)) with false
    by (symmetry; apply orb_false_iff; lia).
  repeat split; intros; try lia.
  - destruct (_GetNumberOfSecondsFromElements _ _ _ _ _ _) as [n|e] eqn:He;
      [discriminate|].
    apply _GetNumberOfSecondsFromElements_raises in He. subst e.
    cbn [fst] in H. apply Raise_inj in H.
    exfalso. apply (year_error_not_month year). symmetry. exact H.
  - rewrite H0. reflexivity.
  - rewrite H0. reflexivity.
Qed.

Lemma C6_year_window_witness :
  _CopyDateTimeFromString "2010-06-15 12:30:45"
  = Ok (<["hours" := 12]> (<["minutes" := 30]> (<["seconds" := 45]>
         (<["year" := 2010]> (<["month" := 6]>
            (<["day_of_month" := 15]> ∅))))))
  /\ _GetNumberOfSecondsFromElements 2010 6 15 12 30 45 = Ok 1276605045
  /\ fst (CopyFromDateTimeString "2010-06-15 12:30:45" unset) = Ok tt
  /\ _number_of_seconds
       (snd (CopyFromDateTimeString "2010-06-15 12:30:45" unset))
     = Some (1276605045 - 315532800).
Proof.
  assert (Hparse : _CopyDateTimeFromString "2010-06-15 12:30:45"
    = Ok (<["hours" := 12]> (<["minutes" := 30]> (<["seconds" := 45]>
           (<["year" := 2010]> (<["month" := 6]>
              (<["day_of_month" := 15]> ∅)))))))
    by (vm_compute; reflexivity).
  assert (Hn : _GetNumberOfSecondsFromElements 2010 6 15 12 30 45
               = Ok 1276605045) by (vm_compute; reflexivity).
  split; [exact Hparse|]. split; [exact Hn|].
  refine (proj2 (proj2 (C6_year_window _ _ unset Hparse)) _ 1276605045 _).
  - vm_compute. split; discriminate.
  - exact Hn.
Defined.

(** ** The states of an instance *)

Lemma CopyFromDateTimeString_raises_state (time_string : string)
    (self : FATDateTime) (e : exception) :
  fst (CopyFromDateTimeString time_string self) = Raise e ->
  snd (CopyFromDateTimeString time_string self) = self.
Proof.
  rewrite CopyFromDateTimeString_eq.
  destruct (_CopyDateTimeFromString time_string) as [values|e'];
    [|reflexivity].
  cbv zeta. destruct ((_ <? 1980) || _); [reflexivity|].
  destruct (_GetNumberOfSecondsFromElements _ _ _ _ _ _);
    [discriminate|reflexivity].
Qed.

Lemma CopyFromDateTimeString_succeeds_state (time_string : string)
    (self other : FATDateTime) :
  fst (CopyFromDateTimeString time_string self) = Ok tt ->
  fst (CopyFromDateTimeString time_string other) = Ok tt
  /\ (exists n,
        _number_of_seconds (snd (CopyFromDateTimeString time_string self))
        = Some n
        /\ _number_of_seconds
             (snd (CopyFromDateTimeString time_string other)) = Some n).
Proof.
  rewrite !CopyFromDateTimeString_eq.
  destruct (_CopyDateTimeFromString time_string) as [values|e'];
    [|discriminate].
  cbv zeta. destruct ((_ <? 1980) || _); [discriminate|].
  destruct (_GetNumberOfSecondsFromElements _ _ _ _ _ _) as [n|e];
    [|discriminate].
  intros _. split; [reflexivity|]. exists (n - 315532800).
  split; reflexivity.
Qed.

(** C5, as amended: on an instance whose number of seconds is set, no
    operation of the public interface unsets it and the four readouts leave
    the instance as it is; [CopyFromDateTimeString] leaves the instance as
    it is when it raises, and when it succeeds it sets the number of seconds
    to the value of its string, the same whatever instance it is called
    on. *)
Theorem C5_set_instance_stays_set (op : operation) (self : FATDateTime)
    (n : Z) :
  _number_of_seconds self = Some n ->
  (exists n', _number_of_seconds (after op self) = Some n')
  /\ (is_readout op = true -> after op self = self)
  /\ (forall time_string,
        op = OpCopyFromDateTimeString time_string ->
        (forall e,
            fst (CopyFromDateTimeString time_string self) = Raise e ->
            after op self = self)
        /\ (fst (CopyFromDateTimeString time_string self) = Ok tt ->
            forall other,
              _number_of_seconds (after op other)
              = _number_of_seconds (after op self))).
Proof.
  intros Hset.
  assert (Hreadout : is_readout op = true -> after op self = self).
  { destruct op; cbn [is_readout after]; intros Hop; try discriminate.
    - rewrite CopyToStatTimeTuple_eq. reflexivity.
    - apply CopyToDateTimeString_state.
    - apply GetDate_state.
    - rewrite GetPlasoTimestamp_eq. reflexivity. }
  split; [|split; [exact Hreadout|]].
  - destruct op as [time_string| | | |];
      try (rewrite Hreadout by reflexivity; exists n; exact Hset).
    cbn [after].
    destruct (fst (CopyFromDateTimeString time_string self)) as [[]|e]
      eqn:Hresult.
    + destruct (CopyFromDateTimeString_succeeds_state
                  time_string self self Hresult) as (_ & n' & Hn' & _).
      exists n'. exact Hn'.
    + rewrite (CopyFromDateTimeString_raises_state _ _ e Hresult).
      exists n. exact Hset.
  - intros time_string ->. cbn [after]. split.
    + intros e. apply CopyFromDateTimeString_raises_state.
    + intros Hok other.
      destruct (CopyFromDateTimeString_succeeds_state
                  time_string self other Hok) as (_ & n' & Hself & Hother).
      rewrite Hself, Hother. reflexivity.
Qed.

Lemma C5_set_instance_stays_set_witness :
  _number_of_seconds
    {| _number_of_seconds := Some 0; precision := Some PRECISION_2_SECONDS;
       is_local_time := false |} = Some 0
  /\ after (OpCopyFromDateTimeString "1979-01-01")
       {| _number_of_seconds := Some 0; precision := Some PRECISION_2_SECONDS;
          is_local_time := false |}
     = {| _number_of_seconds := Some 0; precision := Some PRECISION_2_SECONDS;
          is_local_time := false |}.
Proof.
  split; [reflexivity|].
  refine (proj1 (proj2 (proj2 (C5_set_instance_stays_set
            (OpCopyFromDateTimeString "1979-01-01")
            {| _number_of_seconds := Some 0;
               precision := Some PRECISION_2_SECONDS;
               is_local_time := false |} 0 eq_refl))
            "1979-01-01"%string eq_refl)
            (year_error 1979) _).
  vm_compute. reflexivity.
Defined.

(** C5 as stated fails: the instance decoded from the packed value of
    1980-01-01 00:00:00 holds 0 seconds, and a later
    [CopyFromDateTimeString] replaces them by 961072245. *)
Lemma C5_counterexample :
  exists self self',
    __init__ (Some 0x21) = Ok self
    /\ _number_of_seconds self = Some 0
    /\ CopyFromDateTimeString "2010-06-15 12:30:45" self = (Ok tt, self')
    /\ _number_of_seconds self' = Some 961072245
    /\ _number_of_seconds self' <> _number_of_seconds self.
Proof.
  eexists. eexists. split; [reflexivity|]. split; [reflexivity|].
  split; [vm_compute; reflexivity|]. split; [reflexivity|]. discriminate.
Qed.

(** ** From days to a date and back *)

Lemma days_before_year_succ (year : Z) :
  days_before_year (year + 1)
  = days_before_year year + _GetNumberOfDaysInYear year.
Proof.
  unfold days_before_year, _GetNumberOfDaysInYear, _IsLeapYear.
  replace (year + 1 - 1) with year by lia.
  destruct (Z.eqb_spec (year mod 4) 0) as [H4|H4];
    destruct (Z.eqb_spec (year mod 100) 0) as [H100|H100];
    destruct (Z.eqb_spec (year mod 400) 0) as [H400|H400];
    cbn [negb andb orb];
    Z.to_euclidean_division_equations; lia.
Qed.

Lemma days_before_year_mono (year year' : Z) :
  year <= year' -> days_before_year year <= days_before_year year'.
Proof.
  intros H. unfold days_before_year.
  Z.to_euclidean_division_equations. lia.
Qed.

Lemma years_forward_spec (fuel : nat) :
  forall year n,
    0 <= n -> n < 365 * Z.of_nat fuel ->
    exists year' rest,
      years_forward fuel year n = (year', rest)
      /\ year <= year'
      /\ 0 <= rest < _GetNumberOfDaysInYear year'
      /\ days_before_year year' + rest = days_before_year year + n.
Proof.
  induction fuel as [|fuel IH]; intros year n Hn Hfuel; [lia|].
  cbn [years_forward].
  pose proof (days_in_year_bounds year) as Hdiy.
  destruct (Z.ltb_spec n (_GetNumberOfDaysInYear year)) as [Hlt|Hge].
  - exists year, n. repeat split; lia.
  - destruct (IH (year + 1) (n - _GetNumberOfDaysInYear year))
      as (year' & rest & Heq & Hle & Hrest & Hsum); [lia|lia|].
    exists year', rest. rewrite Heq. rewrite days_before_year_succ in Hsum.
    repeat split; lia.
Qed.

Lemma month_offset_mono (leap : bool) (month : Z) :
  1 <= month <= 12 ->
  month_offset leap (month + 1) <= month_offset leap 13.
Proof.
  intros H. month_cases month; destruct leap; vm_compute; discriminate.
Qed.

Lemma month_offset_1 (leap : bool) : month_offset leap 1 = 0.
Proof. destruct leap; reflexivity. Qed.

Lemma months_forward_spec (fuel : nat) :
  forall year month n,
    1 <= month <= 12 -> 0 <= n ->
    month_offset (_IsLeapYear year) month + n
    < month_offset (_IsLeapYear year) 13 ->
    13 - month <= Z.of_nat fuel ->
    exists month' rest,
      months_forward fuel year month n = Ok (month', rest)
      /\ 1 <= month' <= 12
      /\ 0 <= rest
         < days_per_month_value (_IsLeapYear year) month'
      /\ month_offset (_IsLeapYear year) month' + rest
         = month_offset (_IsLeapYear year) month + n.
Proof.
  induction fuel as [|fuel IH]; intros year month n Hm Hn Hin Hfuel; [lia|].
  cbn [months_forward]. rewrite _GetDaysPerMonth_ok by assumption.
  cbn [result_bind].
  pose proof (days_per_month_value_offsets (_IsLeapYear year) month Hm)
    as Hdpm.
  destruct (Z.ltb_spec n (days_per_month_value (_IsLeapYear year) month))
    as [Hlt|Hge].
  - exists month, n. repeat split; lia.
  - assert (Hm' : month < 12).
    { destruct (Z.eq_dec month 12) as [->|]; [|lia].
      change (12 + 1) with 13 in Hdpm. lia. }
    destruct (IH year (month + 1)
                (n - days_per_month_value (_IsLeapYear year) month))
      as (month' & rest & Heq & Hle & Hrest & Hsum); [lia|lia|lia|lia|].
    exists month', rest. rewrite Heq. repeat split; lia.
Qed.

(** The date of a day that is not before the epoch of the format. *)
Lemma _GetDateValuesWithEpoch_spec (number_of_days : Z) :
  0 <= number_of_days ->
  exists year month day_of_month,
    _GetDateValuesWithEpoch number_of_days _EPOCH
    = Ok (year, month, day_of_month)
    /\ 1980 <= year /\ 1 <= month <= 12
    /\ 1 <= day_of_month
       <= days_per_month_value (_IsLeapYear year) month
    /\ days_before_year year + month_offset (_IsLeapYear year) month
       + day_of_month - 1
       = days_before_year 1980 + number_of_days.
Proof.
  intros Hn. unfold _GetDateValuesWithEpoch.
  change (_GetDayOfYear (epoch_year _EPOCH) (epoch_month _EPOCH)
            (epoch_day_of_month _EPOCH)) with (@Ok Z 1).
  cbn [result_bind]. change (epoch_year _EPOCH) with 1980.
  replace (number_of_days + 1 - 1) with number_of_days by lia.
  destruct (Z.ltb_spec number_of_days 0) as [Hneg|_]; [lia|].
  destruct (years_forward_spec
              (Z.to_nat (Z.abs number_of_days / 365 + 1)) 1980
              number_of_days Hn)
    as (year & rest & Heq & Hyear & Hrest & Hsum).
  { rewrite Z2Nat.id by (Z.to_euclidean_division_equations; lia).
    Z.to_euclidean_division_equations; lia. }
  rewrite Heq.
  destruct (months_forward_spec 12 year 1 rest) as
    (month & rest' & Hmeq & Hmonth & Hrest' & Hmsum).
  { lia. }
  { lia. }
  { rewrite month_offset_13, month_offset_1. lia. }
  { lia. }
  rewrite Hmeq. cbn [result_bind].
  exists year, month, (rest' + 1). split; [reflexivity|].
  rewrite month_offset_1 in Hmsum.
  repeat split; lia.
Qed.

Lemma _GetTimeValues_spec (n : Z) :
  exists days hours minutes seconds,
    _GetTimeValues n = (days, hours, minutes, seconds)
    /\ 0 <= hours < 24 /\ 0 <= minutes < 60 /\ 0 <= seconds < 60
    /\ ((days * 24 + hours) * 60 + minutes) * 60 + seconds = n
    /\ days = n / 86400.
Proof.
  unfold _GetTimeValues. do 4 eexists. split; [reflexivity|].
  Z.to_euclidean_division_equations. lia.
Qed.

(** The decoded days stay within the 128 years of the format. *)
Lemma days_per_month_value_within_year (leap leap' : bool) (month d : Z) :
  1 <= month <= 12 -> d <= days_per_month_value leap month ->
  d + month_offset leap' month <= 366
  /\ (leap = false -> leap' = false -> d + month_offset leap' month <= 365).
Proof.
  intros Hm. month_cases month; destruct leap, leap';
    vm_compute days_per_month_value; vm_compute month_offset;
    intros Hd; split; intros; try discriminate; lia.
Qed.

Lemma _GetNumberOfSeconds_days_upper (v number_of_days : Z) :
  _GetNumberOfSeconds_days v = Ok number_of_days -> number_of_days < 46751.
Proof.
  intros H. apply _GetNumberOfSeconds_days_inv in H.
  destruct H as (Hm & Hd & ->).
  pose proof (packed_year_bounds v) as Hy.
  destruct (days_per_month_value_within_year
              (_IsLeapYear (packed_year v))
              (_IsLeapYear (1980 + packed_year v))
              (packed_month v) (packed_day_of_month v) Hm (proj2 Hd))
    as [H366 H365].
  destruct (Z.eq_dec (packed_year v) 127) as [Heq|Hne].
  - rewrite Heq in *.
    change (sum_over _GetNumberOfDaysInYear (range 0 127)) with 46386.
    specialize (H365 eq_refl eq_refl). lia.
  - pose proof (sum_days_in_years_bounds (packed_year v)). lia.
Qed.

(** ** Formatting and parsing *)

Lemma format_0d_2 (n : Z) : 0 <= n < 100 -> format_0d 2 n = two_digits n.
Proof.
  apply (Forall_range_check (fun n => format_0d 2 n = two_digits n)
           (fun n => String.eqb (format_0d 2 n) (two_digits n))).
  - intros k. apply String.eqb_eq.
  - vm_compute. reflexivity.
Qed.

Lemma format_0d_4 (n : Z) : 0 <= n < 10000 -> format_0d 4 n = four_digits n.
Proof.
  apply (Forall_range_check (fun n => format_0d 4 n = four_digits n)
           (fun n => String.eqb (format_0d 4 n) (four_digits n))).
  - intros k. apply String.eqb_eq.
  - vm_compute. reflexivity.
Qed.

Lemma parse_two_digits (n : Z) :
  0 <= n < 100 -> parse_digits (two_digits n) 0 = Some n.
Proof.
  apply (Forall_range_check
           (fun n => parse_digits (two_digits n) 0 = Some n)
           (fun n => match parse_digits (two_digits n) 0 with
                     | Some k => k =? n
                     | None => false
                     end)).
  - intros k. destruct (parse_digits (two_digits k) 0) as [j|];
      [|discriminate].
    intros H. apply Z.eqb_eq in H. congruence.
  - vm_compute. reflexivity.
Qed.

Lemma parse_four_digits (n : Z) :
  0 <= n < 10000 -> parse_digits (four_digits n) 0 = Some n.
Proof.
  apply (Forall_range_check
           (fun n => parse_digits (four_digits n) 0 = Some n)
           (fun n => match parse_digits (four_digits n) 0 with
                     | Some k => k =? n
                     | None => false
                     end)).
  - intros k. destruct (parse_digits (four_digits k) 0) as [j|];
      [|discriminate].
    intros H. apply Z.eqb_eq in H. congruence.
  - vm_compute. reflexivity.
Qed.

Lemma int_of_string_digits (s what : string) (n : Z) :
  s <> "" -> parse_digits s 0 = Some n -> int_of_string s what = Ok n.
Proof.
  intros Hs Hp. unfold int_of_string. destruct s; [congruence|].
  rewrite Hp. reflexivity.
Qed.

Lemma _CopyDateTimeFromString_shape
    (y0 y1 y2 y3 m0 m1 d0 d1 h0 h1 i0 i1 s0 s1 : ascii)
    (year month day_of_month hours minutes seconds : Z) :
  int_of_string (String y0 (String y1 (String y2 (String y3 "")))) "year"
  = Ok year ->
  int_of_string (String m0 (String m1 "")) "month" = Ok month ->
  int_of_string (String d0 (String d1 "")) "day of month"
  = Ok day_of_month ->
  int_of_string (String h0 (String h1 "")) "hours" = Ok hours ->
  int_of_string (String i0 (String i1 "")) "minutes" = Ok minutes ->
  int_of_string (String s0 (String s1 "")) "seconds" = Ok seconds ->
  _CopyDateTimeFromString
    (String y0 (String y1 (String y2 (String y3 (String "-"
    (String m0 (String m1 (String "-" (String d0 (String d1 (String " "
    (String h0 (String h1 (String ":" (String i0 (String i1 (String ":"
    (String s0 (String s1 "")))))))))))))))))))
  = Ok (canonical_values year month day_of_month hours minutes seconds).
Proof.
  intros Hy Hm Hd Hh Hi Hs.
  unfold _CopyDateTimeFromString, _CopyDateFromString, _CopyTimeFromString.
  cbn [String.length Nat.ltb Nat.leb Nat.eqb char_is String.get slice
       substring Nat.sub Ascii.eqb Bool.eqb negb andb].
  rewrite Hy, Hm, Hd, Hh, Hi, Hs. reflexivity.
Qed.

Lemma two_digits_not_empty (n : Z) : two_digits n <> "".
Proof. discriminate. Qed.

Lemma _CopyDateTimeFromString_canonical
    (year month day_of_month hours minutes seconds : Z) :
  0 <= year < 10000 -> 0 <= month < 100 -> 0 <= day_of_month < 100 ->
  0 <= hours < 100 -> 0 <= minutes < 100 -> 0 <= seconds < 100 ->
  _CopyDateTimeFromString
    (canonical_string year month day_of_month hours minutes seconds)
  = Ok (canonical_values year month day_of_month hours minutes seconds).
Proof.
  intros Hy Hm Hd Hh Hi Hs.
  apply _CopyDateTimeFromString_shape.
  - apply int_of_string_digits; [discriminate|].
    exact (parse_four_digits year Hy).
  - apply int_of_string_digits; [discriminate|].
    exact (parse_two_digits month Hm).
  - apply int_of_string_digits; [discriminate|].
    exact (parse_two_digits day_of_month Hd).
  - apply int_of_string_digits; [discriminate|].
    exact (parse_two_digits hours Hh).
  - apply int_of_string_digits; [discriminate|].
    exact (parse_two_digits minutes Hi).
  - apply int_of_string_digits; [discriminate|].
    exact (parse_two_digits seconds Hs).
Qed.

Lemma canonical_values_lookup
    (year month day_of_month hours minutes seconds : Z) :
  let values :=
    canonical_values year month day_of_month hours minutes seconds in
  get_or_zero values "year" = year
  /\ get_or_zero values "month" = month
  /\ get_or_zero values "day_of_month" = day_of_month
  /\ get_or_zero values "hours" = hours
  /\ get_or_zero values "minutes" = minutes
  /\ get_or_zero values "seconds" = seconds.
Proof.
  unfold get_or_zero, canonical_values. cbv zeta.
  repeat split; simplify_map_eq; reflexivity.
Qed.


(** ** The round trip through the date and time string *)

Lemma CopyToDateTimeString_eq (self : FATDateTime)
    (n days hours minutes seconds year month day_of_month : Z) :
  _number_of_seconds self = Some n ->
  _GetTimeValues n = (days, hours, minutes, seconds) ->
  _GetDateValuesWithEpoch days _EPOCH = Ok (year, month, day_of_month) ->
  CopyToDateTimeString self
  = (Ok (Some (format_0d 4 year +:+ "-" +:+ format_0d 2 month +:+ "-"
               +:+ format_0d 2 day_of_month +:+ " "
               +:+ format_0d 2 hours +:+ ":" +:+ format_0d 2 minutes
               +:+ ":" +:+ format_0d 2 seconds)), self).
Proof.
  intros Hn Htime Hdate.
  unfold CopyToDateTimeString, bind, get_number_of_seconds, call, ret.
  rewrite Hn, Htime, Hdate. reflexivity.
Qed.

Lemma _GetNumberOfSecondsFromElements_eq
    (year month day_of_month hours minutes seconds : Z) :
  1 <= month <= 12 ->
  _GetNumberOfSecondsFromElements year month day_of_month hours minutes
    seconds
  = Ok ((((days_before_year year
           + (day_of_month + month_offset (_IsLeapYear year) month) - 1)
          * 24 + hours) * 60 + minutes) * 60 + seconds).
Proof.
  intros Hm. unfold _GetNumberOfSecondsFromElements.
  rewrite _GetDayOfYear_eq by assumption. reflexivity.
Qed.

(** From a number of seconds within the 128 years of the format to its
    string and back. *)
Lemma string_round_trip (self other : FATDateTime) (n : Z) :
  _number_of_seconds self = Some n ->
  0 <= n < 46751 * 86400 ->
  exists time_string,
    CopyToDateTimeString self = (Ok (Some time_string), self)
    /\ CopyFromDateTimeString time_string other
       = (Ok tt, {| _number_of_seconds := Some n;
                    precision := precision other;
                    is_local_time := false |}).
Proof.
  intros Hset Hn.
  destruct (_GetTimeValues_spec n)
    as (days & hours & minutes & seconds & Htime & Hh & Hi & Hs & Hsum
        & Hdays).
  assert (Hd : 0 <= days < 46751).
  { subst days. Z.to_euclidean_division_equations. lia. }
  destruct (_GetDateValuesWithEpoch_spec days (proj1 Hd))
    as (year & month & day_of_month & Hdate & Hy & Hm & Hdom & Hcount).
  pose proof (days_per_month_value_bounds (_IsLeapYear year) month Hm)
    as Hdpm.
  pose proof (month_offset_bounds (_IsLeapYear year) month Hm) as Hoff.
  assert (Hy' : year <= 2107).
  { destruct (Z_le_gt_dec year 2107) as [Hle|Hgt]; [exact Hle|].
    pose proof (days_before_year_mono 2108 year ltac:(lia)) as Hmono.
    change (days_before_year 2108) with 50403 in Hmono.
    change (days_before_year 1980) with 3652 in Hcount. lia. }
  exists (canonical_string year month day_of_month hours minutes seconds).
  split.
  - rewrite (CopyToDateTimeString_eq self n days hours minutes seconds
               year month day_of_month Hset Htime Hdate).
    rewrite format_0d_4 by lia. rewrite !format_0d_2 by lia. reflexivity.
  - rewrite CopyFromDateTimeString_eq.
    rewrite _CopyDateTimeFromString_canonical by lia.
    destruct (canonical_values_lookup year month day_of_month hours minutes
                seconds) as (-> & -> & -> & -> & -> & ->).
    cbv zeta.
    replace ((year <? 1980) || (1980 + 127 <? year)) with false
      by (symmetry; apply orb_false_iff; lia).
    rewrite _GetNumberOfSecondsFromElements_eq by assumption.
    change (days_before_year 1980) with 3652 in Hcount.
    do 3 f_equal. lia.
Qed.

(** C2: for every packed value [v] whose decoding succeeds, the instance
    built from [v] renders a string from which [CopyFromDateTimeString], on
    a fresh instance, recovers the number of seconds of the decoding. *)
Theorem C2_string_round_trip (v : Z) (self : FATDateTime) :
  __init__ (Some v) = Ok self ->
  exists time_string fresh self',
    CopyToDateTimeString self = (Ok (Some time_string), self)
    /\ __init__ None = Ok fresh
    /\ CopyFromDateTimeString time_string fresh = (Ok tt, self')
    /\ _number_of_seconds self' = _number_of_seconds self.
Proof.
  intros Hinit. unfold __init__ in Hinit.
  destruct (_GetNumberOfSeconds v) as [n|e] eqn:Hdecode; [|discriminate].
  cbn [result_bind] in Hinit. injection Hinit as <-.
  destruct (_GetNumberOfSeconds_inv v n Hdecode)
    as (nd & Hdays & Hh & Hi & Hs & Hn).
  pose proof (_GetNumberOfSeconds_days_nonneg v nd Hdays) as Hlo.
  pose proof (_GetNumberOfSeconds_days_upper v nd Hdays) as Hhi.
  pose proof (packed_hours_bounds v). pose proof (packed_minutes_bounds v).
  pose proof (packed_seconds_bounds v).
  destruct (string_round_trip
              {| _number_of_seconds := Some n;
                 precision := Some PRECISION_2_SECONDS;
                 is_local_time := false |} unset n eq_refl)
    as (time_string & Hto & Hfrom); [nia|].
  exists time_string, unset. eexists.
  split; [exact Hto|]. split; [reflexivity|]. split; [exact Hfrom|].
  reflexivity.
Qed.

Lemma C2_string_round_trip_witness :
  __init__ (Some 0xBF7DFF9F)
  = Ok {| _number_of_seconds := Some 4039286398;
          precision := Some PRECISION_2_SECONDS; is_local_time := false |}
  /\ exists time_string fresh self',
       CopyToDateTimeString
         {| _number_of_seconds := Some 4039286398;
            precision := Some PRECISION_2_SECONDS; is_local_time := false |}
       = (Ok (Some time_string),
          {| _number_of_seconds := Some 4039286398;
             precision := Some PRECISION_2_SECONDS; is_local_time := false |})
       /\ __init__ None = Ok fresh
       /\ CopyFromDateTimeString time_string fresh = (Ok tt, self')
       /\ _number_of_seconds self' = Some 4039286398.
Proof.
  assert (H : __init__ (Some 0xBF7DFF9F)
              = Ok {| _number_of_seconds := Some 4039286398;
                      precision := Some PRECISION_2_SECONDS;
                      is_local_time := false |})
    by (vm_compute; reflexivity).
  split; [exact H|].
  exact (C2_string_round_trip 0xBF7DFF9F _ H).
Defined.

(** * Further properties of the codec *)

(** ** Which packed values decode, and with which error the others fail *)

Lemma _GetNumberOfSeconds_succeeds_iff (v : Z) :
  (exists n, _GetNumberOfSeconds v = Ok n)
  <-> 1 <= packed_month v <= 12
      /\ 1 <= packed_day_of_month v
           <= days_per_month_value (_IsLeapYear (packed_year v))
                (packed_month v)
      /\ packed_hours v <= 23 /\ packed_minutes v <= 59
      /\ packed_seconds v <= 59.
Proof.
  split.
  - intros [n Hn]. apply _GetNumberOfSeconds_inv in Hn.
    destruct Hn as (nd & Hdays & Hh & Hm & Hs & _).
    apply _GetNumberOfSeconds_days_inv in Hdays.
    destruct Hdays as (Hmonth & Hday & _). repeat split; lia.
  - intros (Hmonth & Hday & Hh & Hm & Hs).
    pose proof (_GetDaysPerMonth_ok (packed_year v) (packed_month v) Hmonth)
      as Hdpm.
    destruct (_GetNumberOfSeconds_days_ok v _ Hdpm Hday) as [nd Hnd].
    rewrite (_GetNumberOfSeconds_eq v nd Hnd).
    pose proof (packed_hours_bounds v). pose proof (packed_minutes_bounds v).
    pose proof (packed_seconds_bounds v).
    rewrite !in_range_true by lia. cbn [negb]. eexists. reflexivity.
Qed.

(** X1: a packed value whose month is within 1..12 and whose year field is
    not 120 decodes exactly when its day of month is between 1 and the
    length of that month in the year given by the raw year field (not by
    the calendar year), and its hours, minutes and doubled seconds are at
    most 23, 59 and 59. *)
Theorem X1_decode_succeeds_iff (v : Z) :
  1 <= packed_month v <= 12 -> packed_year v <> 120 ->
  ((exists n, _GetNumberOfSeconds v = Ok n)
   <-> 1 <= packed_day_of_month v
         <= days_per_month_value (_IsLeapYear (packed_year v))
              (packed_month v)
       /\ packed_hours v <= 23 /\ packed_minutes v <= 59
       /\ packed_seconds v <= 59).
Proof.
  intros Hm _. rewrite _GetNumberOfSeconds_succeeds_iff. split.
  - intros (_ & H). exact H.
  - intros H. split; [exact Hm|exact H].
Qed.

(** 1980-02-29 12:30:44 decodes; the year field 0 counts as a leap year. *)
Lemma X1_decode_succeeds_iff_witness :
  (exists n, _GetNumberOfSeconds 0x63D6005D = Ok n)
  <-> 1 <= packed_day_of_month 0x63D6005D
        <= days_per_month_value (_IsLeapYear (packed_year 0x63D6005D))
             (packed_month 0x63D6005D)
      /\ packed_hours 0x63D6005D <= 23 /\ packed_minutes 0x63D6005D <= 59
      /\ packed_seconds 0x63D6005D <= 59.
Proof.
  refine (X1_decode_succeeds_iff 0x63D6005D _ _).
  - vm_compute. split; discriminate.
  - vm_compute. discriminate.
Defined.

(** X2: the day of month is checked before the time of day: with a month
    within 1..12, a day of month that is 0 or beyond the length of the month
    in the year given by the raw year field raises the error on the day of
    month, whatever the time fields hold. *)
Theorem X2_date_errors_first (v : Z) :
  1 <= packed_month v <= 12 ->
  packed_day_of_month v < 1
  \/ days_per_month_value (_IsLeapYear (packed_year v)) (packed_month v)
     < packed_day_of_month v ->
  _GetNumberOfSeconds v
  = Raise (ValueError "Day of month value out of bounds.").
Proof.
  intros Hm Hd. unfold _GetNumberOfSeconds, _GetNumberOfSeconds_days.
  fold (packed_day_of_month v) (packed_month v) (packed_year v).
  rewrite _GetDaysPerMonth_ok by assumption. cbn [result_bind].
  replace ((packed_day_of_month v <? 1)
           || (days_per_month_value (_IsLeapYear (packed_year v))
                 (packed_month v) <? packed_day_of_month v)) with true
    by (symmetry; apply orb_true_iff; lia).
  reflexivity.
Qed.

(** 1981-02-30 with hours = 25: the day of month is reported, not the
    hours. *)
Lemma X2_date_errors_first_witness :
  packed_hours 0xC800025E = 25
  /\ _GetNumberOfSeconds 0xC800025E
     = Raise (ValueError "Day of month value out of bounds.").
Proof.
  split; [reflexivity|].
  refine (X2_date_errors_first 0xC800025E _ _).
  - vm_compute. split; discriminate.
  - right. vm_compute. reflexivity.
Defined.

(** X15: for a packed value whose month is within 1..12, whose year field
    is not 120 and whose day of month passes the check of the decoding, the
    decoding raises exactly when the hours exceed 23, the minutes exceed 59
    or the doubled seconds field exceeds 59, and the exception names the
    first field out of range in the order hours, minutes, seconds. *)
Theorem X15_time_fields_checked (v : Z) :
  1 <= packed_month v <= 12 -> packed_year v <> 120 ->
  1 <= packed_day_of_month v
    <= days_per_month_value (_IsLeapYear (packed_year v)) (packed_month v) ->
  (23 < packed_hours v ->
   _GetNumberOfSeconds v = Raise (ValueError "Hours value out of bounds."))
  /\ (packed_hours v <= 23 -> 59 < packed_minutes v ->
      _GetNumberOfSeconds v
      = Raise (ValueError "Minutes value out of bounds."))
  /\ (packed_hours v <= 23 -> packed_minutes v <= 59 ->
      59 < packed_seconds v ->
      _GetNumberOfSeconds v
      = Raise (ValueError "Seconds value out of bounds."))
  /\ ((exists e, _GetNumberOfSeconds v = Raise e)
      <-> 23 < packed_hours v \/ 59 < packed_minutes v
          \/ 59 < packed_seconds v).
Proof.
  intros Hm _ Hd.
  pose proof (_GetDaysPerMonth_ok (packed_year v) (packed_month v) Hm)
    as Hdpm.
  destruct (_GetNumberOfSeconds_days_ok v _ Hdpm Hd) as [nd Hnd].
  destruct (_GetNumberOfSeconds_time_fields v nd Hnd)
    as (Hhours & Hminutes & Hseconds & _ & Hiff).
  repeat split; try assumption; apply Hiff.
Qed.

(** A packed value with hours = 25, on 1980-01-01. *)
Lemma X15_time_fields_checked_witness :
  packed_hours 3355443233 = 25
  /\ _GetNumberOfSeconds 3355443233
     = Raise (ValueError "Hours value out of bounds.").
Proof.
  split; [reflexivity|].
  refine (proj1 (X15_time_fields_checked 3355443233 _ _ _) _).
  - vm_compute. split; discriminate.
  - vm_compute. discriminate.
  - vm_compute. split; discriminate.
  - vm_compute. reflexivity.
Defined.

(** ** The decoded number of seconds *)

(** X3: a decoded number of seconds is even: the format holds no odd
    second. *)
Theorem X3_decoded_seconds_even (v n : Z) :
  _GetNumberOfSeconds v = Ok n -> n mod 2 = 0.
Proof.
  intros H. apply _GetNumberOfSeconds_inv in H.
  destruct H as (nd & _ & _ & _ & _ & ->).
  unfold packed_seconds.
  replace ((packed_hours v * 60 + packed_minutes v) * 60
           + Z.land (Z.shiftr v 16) 31 * 2 + nd * 86400)
    with (((packed_hours v * 60 + packed_minutes v) * 30
           + Z.land (Z.shiftr v 16) 31 + nd * 43200) * 2) by lia.
  apply Z.mod_mul. lia.
Qed.

Lemma X3_decoded_seconds_even_witness :
  _GetNumberOfSeconds 0xBF7DFF9F = Ok 4039286398
  /\ 4039286398 mod 2 = 0.
Proof.
  assert (H : _GetNumberOfSeconds 0xBF7DFF9F = Ok 4039286398)
    by (vm_compute; reflexivity).
  split; [exact H|].
  exact (X3_decoded_seconds_even 0xBF7DFF9F 4039286398 H).
Defined.

(** X4: a decoded number of seconds is at most 4039286398, the value of
    2107-12-31 23:59:58. *)
Theorem X4_decoded_seconds_upper_bound (v n : Z) :
  _GetNumberOfSeconds v = Ok n -> n <= 4039286398.
Proof.
  intros H. apply _GetNumberOfSeconds_inv in H.
  destruct H as (nd & Hdays & Hh & Hm & Hs & ->).
  apply _GetNumberOfSeconds_days_upper in Hdays.
  pose proof (packed_seconds_bounds v) as Hs'. unfold packed_seconds in *.
  lia.
Qed.

Lemma X4_decoded_seconds_upper_bound_witness :
  _GetNumberOfSeconds 0xBF7DFF9F = Ok 4039286398
  /\ 4039286398 <= 4039286398.
Proof.
  assert (H : _GetNumberOfSeconds 0xBF7DFF9F = Ok 4039286398)
    by (vm_compute; reflexivity).
  split; [exact H|].
  exact (X4_decoded_seconds_upper_bound 0xBF7DFF9F 4039286398 H).
Defined.

(** X5: the decoded number of seconds splits at 86400 into the whole days
    and the time of day of the packed value: its remainder is
    hours * 3600 + minutes * 60 + seconds of the time fields. *)
Theorem X5_decoded_time_of_day (v n : Z) :
  _GetNumberOfSeconds v = Ok n ->
  n mod 86400
  = packed_hours v * 3600 + packed_minutes v * 60 + packed_seconds v
  /\ _GetNumberOfSeconds_days v = Ok (n / 86400).
Proof.
  intros H. apply _GetNumberOfSeconds_inv in H.
  destruct H as (nd & Hdays & Hh & Hm & Hs & ->).
  pose proof (packed_hours_bounds v). pose proof (packed_minutes_bounds v).
  pose proof (packed_seconds_bounds v).
  assert (Ht : 0 <= (packed_hours v * 60 + packed_minutes v) * 60
                    + packed_seconds v < 86400) by lia.
  rewrite Hdays. split.
  - rewrite Z.mod_add by lia. rewrite Z.mod_small by lia. lia.
  - f_equal. rewrite Z.div_add by lia. rewrite Z.div_small by lia. lia.
Qed.

Lemma X5_decoded_time_of_day_witness :
  _GetNumberOfSeconds 0xBF7DFF9F = Ok 4039286398
  /\ 4039286398 mod 86400
     = packed_hours 0xBF7DFF9F * 3600 + packed_minutes 0xBF7DFF9F * 60
       + packed_seconds 0xBF7DFF9F
  /\ _GetNumberOfSeconds_days 0xBF7DFF9F = Ok (4039286398 / 86400).
Proof.
  assert (H : _GetNumberOfSeconds 0xBF7DFF9F = Ok 4039286398)
    by (vm_compute; reflexivity).
  split; [exact H|].
  exact (X5_decoded_time_of_day 0xBF7DFF9F 4039286398 H).
Defined.

(** ** Only the low 32 bits are read *)

Lemma field_low_bits (v k shift width : Z) :
  0 <= shift -> 0 <= width -> shift + width <= 32 ->
  Z.land (Z.shiftr (v + k * 2 ^ 32) shift) (Z.ones width)
  = Z.land (Z.shiftr v shift) (Z.ones width).
Proof.
  intros Hs Hw Hsw. rewrite !Z.land_ones by assumption.
  rewrite !Z.shiftr_div_pow2 by assumption.
  replace (k * 2 ^ 32) with (k * 2 ^ (32 - shift - width) * 2 ^ width
                             * 2 ^ shift).
  2:{ rewrite <- !Z.mul_assoc. rewrite <- !Z.pow_add_r by lia.
      do 2 f_equal. lia. }
  rewrite Z.div_add by (apply Z.pow_nonzero; lia).
  rewrite Z.mod_add by (apply Z.pow_nonzero; lia). reflexivity.
Qed.

Lemma _GetNumberOfSeconds_fields (v v' : Z) :
  packed_day_of_month v = packed_day_of_month v' ->
  packed_month v = packed_month v' ->
  packed_year v = packed_year v' ->
  packed_seconds v = packed_seconds v' ->
  packed_minutes v = packed_minutes v' ->
  packed_hours v = packed_hours v' ->
  _GetNumberOfSeconds v = _GetNumberOfSeconds v'.
Proof.
  intros Hd Hm Hy Hs Hi Hh.
  unfold _GetNumberOfSeconds, _GetNumberOfSeconds_days.
  fold (packed_day_of_month v) (packed_month v) (packed_year v)
       (packed_seconds v) (packed_minutes v) (packed_hours v).
  fold (packed_day_of_month v') (packed_month v') (packed_year v')
       (packed_seconds v') (packed_minutes v') (packed_hours v').
  rewrite Hd, Hm, Hy, Hs, Hi, Hh. reflexivity.
Qed.

(** X6: the decoding reads the low 32 bits of its argument only: two
    integers that differ by a multiple of 2^32, negative ones included,
    decode to the same result. *)
Theorem X6_decode_low_32_bits (v k : Z) :
  _GetNumberOfSeconds (v + k * 2 ^ 32) = _GetNumberOfSeconds v.
Proof.
  apply _GetNumberOfSeconds_fields.
  - unfold packed_day_of_month.
    rewrite <- (Z.shiftr_0_r (v + k * 2 ^ 32)), <- (Z.shiftr_0_r v) at 1.
    exact (field_low_bits v k 0 5 ltac:(lia) ltac:(lia) ltac:(lia)).
  - exact (field_low_bits v k 5 4 ltac:(lia) ltac:(lia) ltac:(lia)).
  - exact (field_low_bits v k 9 7 ltac:(lia) ltac:(lia) ltac:(lia)).
  - unfold packed_seconds. f_equal.
    exact (field_low_bits v k 16 5 ltac:(lia) ltac:(lia) ltac:(lia)).
  - unfold packed_minutes. rewrite !Z.shiftr_shiftr by lia.
    exact (field_low_bits v k 21 6 ltac:(lia) ltac:(lia) ltac:(lia)).
  - unfold packed_hours. rewrite !Z.shiftr_shiftr by lia.
    exact (field_low_bits v k 27 5 ltac:(lia) ltac:(lia) ltac:(lia)).
Qed.

(** ** The whole days against the calendar *)

Lemma sum_days_in_years_calendar (year count : Z) :
  0 <= count ->
  sum_over _GetNumberOfDaysInYear (range year (year + count))
  = days_before_year (year + count) - days_before_year year.
Proof.
  revert count.
  apply (natlike_ind (fun count =>
    sum_over _GetNumberOfDaysInYear (range year (year + count))
    = days_before_year (year + count) - days_before_year year)).
  - replace (year + 0) with year by lia. unfold range.
    rewrite Z.sub_diag. simpl. lia.
  - intros count Hcount IH.
    replace (year + Z.succ count) with (year + count + 1) by lia.
    rewrite range_snoc by lia. rewrite sum_over_app, IH.
    rewrite days_before_year_succ. unfold sum_over at 1.
    cbn [fold_right]. lia.
Qed.

Lemma _GetNumberOfSeconds_days_calendar (v number_of_days : Z) :
  _GetNumberOfSeconds_days v = Ok number_of_days ->
  number_of_days
  = days_before_year (1980 + packed_year v) - days_before_year 1980
    + month_offset (_IsLeapYear (1980 + packed_year v)) (packed_month v)
    + packed_day_of_month v - 1
    - (if (100 <? packed_year v) && (packed_year v <? 121) then 1 else 0).
Proof.
  intros H. apply _GetNumberOfSeconds_days_inv in H.
  destruct H as (_ & _ & ->).
  pose proof (packed_year_bounds v) as Hy.
  rewrite (year_lengths_of_year_field (packed_year v) Hy).
  rewrite sum_days_in_years_calendar by lia. lia.
Qed.

(** X7: a decoded number of seconds is the number of seconds from
    1980-01-01 00:00:00 to the date and time of the packed fields in the
    Gregorian calendar, the year being [1980 + year], except for the year
    fields 101 to 120, where it is exactly one day (86400 seconds) less. *)
Theorem X7_decoded_seconds_against_calendar (v n : Z) :
  _GetNumberOfSeconds v = Ok n ->
  n = seconds_since_1980 (1980 + packed_year v) (packed_month v)
        (packed_day_of_month v) (packed_hours v) (packed_minutes v)
        (packed_seconds v)
      - (if (100 <? packed_year v) && (packed_year v <? 121)
         then 86400 else 0).
Proof.
  intros H. apply _GetNumberOfSeconds_inv in H.
  destruct H as (nd & Hdays & _ & _ & _ & ->).
  rewrite (_GetNumberOfSeconds_days_calendar v nd Hdays).
  unfold seconds_since_1980.
  destruct ((100 <? packed_year v) && (packed_year v <? 121)); lia.
Qed.

Lemma X7_decoded_seconds_against_calendar_witness :
  _GetNumberOfSeconds 0xCA21 = Ok 3187296000
  /\ 3187296000
     = seconds_since_1980 (1980 + packed_year 0xCA21) (packed_month 0xCA21)
         (packed_day_of_month 0xCA21) (packed_hours 0xCA21)
         (packed_minutes 0xCA21) (packed_seconds 0xCA21)
       - (if (100 <? packed_year 0xCA21) && (packed_year 0xCA21 <? 121)
          then 86400 else 0).
Proof.
  assert (H : _GetNumberOfSeconds 0xCA21 = Ok 3187296000)
    by (vm_compute; reflexivity).
  split; [exact H|].
  exact (X7_decoded_seconds_against_calendar 0xCA21 3187296000 H).
Defined.

(** ** A day count names one date *)

Lemma month_offset_le (leap : bool) (a b : Z) :
  1 <= a -> a <= b -> b <= 13 ->
  month_offset leap a <= month_offset leap b.
Proof.
  intros Ha Hab Hb.
  assert (Ha' : a = 1 \/ a = 2 \/ a = 3 \/ a = 4 \/ a = 5 \/ a = 6 \/ a = 7
                \/ a = 8 \/ a = 9 \/ a = 10 \/ a = 11 \/ a = 12 \/ a = 13)
    by lia.
  assert (Hb' : b = 1 \/ b = 2 \/ b = 3 \/ b = 4 \/ b = 5 \/ b = 6 \/ b = 7
                \/ b = 8 \/ b = 9 \/ b = 10 \/ b = 11 \/ b = 12 \/ b = 13)
    by lia.
  repeat (destruct Ha' as [Ha'|Ha']); subst a;
    repeat (destruct Hb' as [Hb'|Hb']); subst b;
    try lia; destruct leap; vm_compute; discriminate.
Qed.

Lemma day_within_year (year month day_of_month : Z) :
  1 <= month <= 12 ->
  1 <= day_of_month <= days_per_month_value (_IsLeapYear year) month ->
  1 <= month_offset (_IsLeapYear year) month + day_of_month
  <= month_offset (_IsLeapYear year) (month + 1)
  /\ month_offset (_IsLeapYear year) (month + 1)
     <= _GetNumberOfDaysInYear year.
Proof.
  intros Hm Hd.
  pose proof (days_per_month_value_offsets (_IsLeapYear year) month Hm).
  pose proof (month_offset_bounds (_IsLeapYear year) month Hm).
  pose proof (month_offset_mono (_IsLeapYear year) month Hm).
  rewrite month_offset_13 in *. lia.
Qed.

Lemma date_unique (year month day_of_month year' month' day_of_month' : Z) :
  1 <= month <= 12 -> 1 <= month' <= 12 ->
  1 <= day_of_month <= days_per_month_value (_IsLeapYear year) month ->
  1 <= day_of_month' <= days_per_month_value (_IsLeapYear year') month' ->
  days_before_year year + month_offset (_IsLeapYear year) month
  + day_of_month
  = days_before_year year' + month_offset (_IsLeapYear year') month'
    + day_of_month' ->
  year = year' /\ month = month' /\ day_of_month = day_of_month'.
Proof.
  intros Hm Hm' Hd Hd' Heq.
  destruct (day_within_year year month day_of_month Hm Hd) as [Hp Hlen].
  destruct (day_within_year year' month' day_of_month' Hm' Hd')
    as [Hp' Hlen'].
  assert (Hyear : year = year').
  { destruct (Z.lt_trichotomy year year') as [Hlt|[Heqy|Hgt]];
      [|exact Heqy|].
    - pose proof (days_before_year_mono (year + 1) year' ltac:(lia)).
      rewrite days_before_year_succ in *. lia.
    - pose proof (days_before_year_mono (year' + 1) year ltac:(lia)).
      rewrite days_before_year_succ in *. lia. }
  subst year'. split; [reflexivity|].
  assert (Hmonth : month = month').
  { destruct (Z.lt_trichotomy month month') as [Hlt|[Heqm|Hgt]];
      [|exact Heqm|].
    - pose proof (month_offset_le (_IsLeapYear year) (month + 1) month'
                    ltac:(lia) ltac:(lia) ltac:(lia)). lia.
    - pose proof (month_offset_le (_IsLeapYear year) (month' + 1) month
                    ltac:(lia) ltac:(lia) ltac:(lia)). lia. }
  subst month'. split; [reflexivity|]. lia.
Qed.

Lemma _GetDateValuesWithEpoch_of_date (year month day_of_month : Z) :
  1980 <= year -> 1 <= month <= 12 ->
  1 <= day_of_month <= days_per_month_value (_IsLeapYear year) month ->
  _GetDateValuesWithEpoch
    (days_before_year year - days_before_year 1980
     + month_offset (_IsLeapYear year) month + day_of_month - 1) _EPOCH
  = Ok (year, month, day_of_month).
Proof.
  intros Hy Hm Hd.
  pose proof (days_before_year_mono 1980 year Hy) as Hmono.
  pose proof (month_offset_bounds (_IsLeapYear year) month Hm) as Hoff.
  destruct (_GetDateValuesWithEpoch_spec
              (days_before_year year - days_before_year 1980
               + month_offset (_IsLeapYear year) month + day_of_month - 1))
    as (year' & month' & day' & Heq & _ & Hm' & Hd' & Hcount); [lia|].
  rewrite Heq.
  destruct (date_unique year' month' day' year month day_of_month
              Hm' Hm Hd' Hd ltac:(lia)) as (-> & -> & ->).
  reflexivity.
Qed.

Lemma _GetTimeValues_of_time (days hours minutes seconds : Z) :
  0 <= hours < 24 -> 0 <= minutes < 60 -> 0 <= seconds < 60 ->
  _GetTimeValues ((hours * 60 + minutes) * 60 + seconds + days * 86400)
  = (days, hours, minutes, seconds).
Proof.
  intros Hh Hm Hs.
  destruct (_GetTimeValues_spec
              ((hours * 60 + minutes) * 60 + seconds + days * 86400))
    as (days' & hours' & minutes' & seconds' & -> & Hh' & Hm' & Hs' & Hsum
        & _).
  assert (days' = days) by lia. subst days'.
  assert (hours' = hours) by lia. subst hours'.
  assert (minutes' = minutes) by lia. subst minutes'.
  assert (seconds' = seconds) by lia. subst seconds'. reflexivity.
Qed.

(** ** Reading a decoded value back *)

Lemma leap_of_year_field (year : Z) :
  0 <= year < 128 ->
  (year =? 100) || (year =? 120)
  || Bool.eqb (_IsLeapYear year) (_IsLeapYear (1980 + year)) = true.
Proof.
  apply (Forall_range_check
           (fun year =>
              (year =? 100) || (year =? 120)
              || Bool.eqb (_IsLeapYear year) (_IsLeapYear (1980 + year))
              = true)
           (fun year =>
              (year =? 100) || (year =? 120)
              || Bool.eqb (_IsLeapYear year) (_IsLeapYear (1980 + year)))).
  - intros k Hk. exact Hk.
  - vm_compute. reflexivity.
Qed.

Lemma days_per_month_value_leap (month : Z) :
  1 <= month <= 12 ->
  days_per_month_value false month <= days_per_month_value true month.
Proof. intros H. month_cases month; vm_compute; discriminate. Qed.

Lemma day_of_month_in_calendar (v : Z) :
  packed_year v <> 120 -> 1 <= packed_month v <= 12 ->
  packed_day_of_month v
  <= days_per_month_value (_IsLeapYear (packed_year v)) (packed_month v) ->
  packed_day_of_month v
  <= days_per_month_value (_IsLeapYear (1980 + packed_year v))
       (packed_month v).
Proof.
  intros Hne Hm Hd.
  pose proof (leap_of_year_field (packed_year v) (packed_year_bounds v))
    as Hleap.
  destruct (Z.eqb_spec (packed_year v) 100) as [H100|H100].
  - rewrite H100 in *.
    change (_IsLeapYear 100) with false in Hd.
    change (_IsLeapYear (1980 + 100)) with true.
    pose proof (days_per_month_value_leap (packed_month v) Hm). lia.
  - destruct (Z.eqb_spec (packed_year v) 120) as [H120|_]; [contradiction|].
    cbn [orb] in Hleap. apply Bool.eqb_prop in Hleap.
    rewrite <- Hleap. exact Hd.
Qed.

(** The instance of a decoded value renders the date and the time of its
    packed fields, outside the year fields 101..120. *)
Lemma decoded_readouts (v n : Z) (self : FATDateTime) :
  _GetNumberOfSeconds v = Ok n ->
  _number_of_seconds self = Some n ->
  packed_year v <= 100 \/ 121 <= packed_year v ->
  GetDate self
  = (Ok (Some (1980 + packed_year v), Some (packed_month v),
         Some (packed_day_of_month v)), self)
  /\ CopyToDateTimeString self
     = (Ok (Some (canonical_string (1980 + packed_year v) (packed_month v)
                    (packed_day_of_month v) (packed_hours v)
                    (packed_minutes v) (packed_seconds v))), self).
Proof.
  intros Hdecode Hset Hyear.
  destruct (_GetNumberOfSeconds_inv v n Hdecode)
    as (nd & Hdays & Hh & Hi & Hs & Hn).
  pose proof (_GetNumberOfSeconds_days_calendar v nd Hdays) as Hcal.
  destruct (_GetNumberOfSeconds_days_inv v nd Hdays) as (Hm & Hd & _).
  pose proof (packed_year_bounds v) as Hy.
  pose proof (packed_hours_bounds v) as Hh'.
  pose proof (packed_minutes_bounds v) as Hi'.
  pose proof (packed_seconds_bounds v) as Hs'.
  pose proof (day_of_month_in_calendar v ltac:(lia) Hm (proj2 Hd)) as Hd'.
  replace ((100 <? packed_year v) && (packed_year v <? 121)) with false
    in Hcal
    by (symmetry; apply andb_false_iff; lia).
  assert (Htime : _GetTimeValues n
                  = (nd, packed_hours v, packed_minutes v,
                     packed_seconds v)).
  { rewrite Hn. apply _GetTimeValues_of_time; lia. }
  assert (Hdate : _GetDateValuesWithEpoch nd _EPOCH
                  = Ok (1980 + packed_year v, packed_month v,
                        packed_day_of_month v)).
  { replace nd with
      (days_before_year (1980 + packed_year v) - days_before_year 1980
       + month_offset (_IsLeapYear (1980 + packed_year v)) (packed_month v)
       + packed_day_of_month v - 1) by lia.
    apply _GetDateValuesWithEpoch_of_date; lia. }
  pose proof (days_per_month_value_bounds
                (_IsLeapYear (1980 + packed_year v)) (packed_month v) Hm).
  split.
  - unfold GetDate, bind, get_number_of_seconds, ret.
    rewrite Hset, Htime, Hdate. reflexivity.
  - rewrite (CopyToDateTimeString_eq self n _ _ _ _ _ _ _ Hset Htime Hdate).
    rewrite format_0d_4 by lia. rewrite !format_0d_2 by lia. reflexivity.
Qed.

(** X8: for a packed value that decodes and whose year field is at most 100
    or at least 121, [GetDate] on the instance returns the year
    [1980 + year], the month and the day of month of the packed value, and
    [CopyToDateTimeString] renders these and the time fields as
    [YYYY-MM-DD hh:mm:ss]. *)
Theorem X8_decoded_date_read_back (v : Z) (self : FATDateTime) :
  __init__ (Some v) = Ok self ->
  packed_year v <= 100 \/ 121 <= packed_year v ->
  GetDate self
  = (Ok (Some (1980 + packed_year v), Some (packed_month v),
         Some (packed_day_of_month v)), self)
  /\ CopyToDateTimeString self
     = (Ok (Some (canonical_string (1980 + packed_year v) (packed_month v)
                    (packed_day_of_month v) (packed_hours v)
                    (packed_minutes v) (packed_seconds v))), self).
Proof.
  intros Hinit Hyear. unfold __init__ in Hinit.
  destruct (_GetNumberOfSeconds v) as [n|e] eqn:Hdecode; [|discriminate].
  cbn [result_bind] in Hinit. injection Hinit as <-.
  apply (decoded_readouts v n); [exact Hdecode|reflexivity|exact Hyear].
Qed.

Lemma X8_decoded_date_read_back_witness :
  __init__ (Some 0xBF7DFF9F)
  = Ok {| _number_of_seconds := Some 4039286398;
          precision := Some PRECISION_2_SECONDS; is_local_time := false |}
  /\ (packed_year 0xBF7DFF9F <= 100 \/ 121 <= packed_year 0xBF7DFF9F)
  /\ GetDate {| _number_of_seconds := Some 4039286398;
                precision := Some PRECISION_2_SECONDS;
                is_local_time := false |}
     = (Ok (Some 2107, Some 12, Some 31),
        {| _number_of_seconds := Some 4039286398;
           precision := Some PRECISION_2_SECONDS; is_local_time := false |})
  /\ CopyToDateTimeString
       {| _number_of_seconds := Some 4039286398;
          precision := Some PRECISION_2_SECONDS; is_local_time := false |}
     = (Ok (Some "2107-12-31 23:59:58"%string),
        {| _number_of_seconds := Some 4039286398;
           precision := Some PRECISION_2_SECONDS; is_local_time := false |}).
Proof.
  assert (H : __init__ (Some 0xBF7DFF9F)
              = Ok {| _number_of_seconds := Some 4039286398;
                      precision := Some PRECISION_2_SECONDS;
                      is_local_time := false |})
    by (vm_compute; reflexivity).
  assert (Hy : packed_year 0xBF7DFF9F <= 100 \/ 121 <= packed_year 0xBF7DFF9F)
    by (right; vm_compute; discriminate).
  split; [exact H|]. split; [exact Hy|].
  exact (X8_decoded_date_read_back 0xBF7DFF9F _ H Hy).
Defined.

(** ** From a string to the instance and back *)

Lemma CopyFromDateTimeString_canonical
    (year month day_of_month hours minutes seconds : Z)
    (self : FATDateTime) :
  1980 <= year <= 2107 -> 1 <= month <= 12 -> 0 <= day_of_month < 100 ->
  0 <= hours < 100 -> 0 <= minutes < 100 -> 0 <= seconds < 100 ->
  CopyFromDateTimeString
    (canonical_string year month day_of_month hours minutes seconds) self
  = (Ok tt,
     {| _number_of_seconds :=
          Some (seconds_since_1980 year month day_of_month hours minutes
                  seconds);
        precision := precision self;
        is_local_time := false |}).
Proof.
  intros Hy Hm Hd Hh Hi Hs.
  rewrite CopyFromDateTimeString_eq.
  rewrite _CopyDateTimeFromString_canonical by lia.
  destruct (canonical_values_lookup year month day_of_month hours minutes
              seconds) as (-> & -> & -> & -> & -> & ->).
  cbv zeta.
  replace ((year <? 1980) || (1980 + 127 <? year)) with false
    by (symmetry; apply orb_false_iff; lia).
  rewrite _GetNumberOfSecondsFromElements_eq by assumption.
  unfold seconds_since_1980. change (days_before_year 1980) with 3652.
  do 3 f_equal. lia.
Qed.

Lemma readouts_of_date
    (year month day_of_month hours minutes seconds : Z)
    (self : FATDateTime) :
  1980 <= year <= 2107 -> 1 <= month <= 12 ->
  1 <= day_of_month <= days_per_month_value (_IsLeapYear year) month ->
  0 <= hours < 24 -> 0 <= minutes < 60 -> 0 <= seconds < 60 ->
  _number_of_seconds self
  = Some (seconds_since_1980 year month day_of_month hours minutes
            seconds) ->
  GetDate self = (Ok (Some year, Some month, Some day_of_month), self)
  /\ CopyToDateTimeString self
     = (Ok (Some (canonical_string year month day_of_month hours minutes
                    seconds)), self).
Proof.
  intros Hy Hm Hd Hh Hi Hs Hset.
  pose proof (days_per_month_value_bounds (_IsLeapYear year) month Hm).
  assert (Htime : _GetTimeValues
                    (seconds_since_1980 year month day_of_month hours
                       minutes seconds)
                  = (days_before_year year - days_before_year 1980
                     + month_offset (_IsLeapYear year) month
                     + day_of_month - 1, hours, minutes, seconds)).
  { unfold seconds_since_1980. apply _GetTimeValues_of_time; lia. }
  pose proof (_GetDateValuesWithEpoch_of_date year month day_of_month
                ltac:(lia) Hm Hd) as Hdate.
  split.
  - unfold GetDate, bind, get_number_of_seconds, ret.
    rewrite Hset, Htime, Hdate. reflexivity.
  - rewrite (CopyToDateTimeString_eq self _ _ _ _ _ _ _ _ Hset Htime Hdate).
    rewrite format_0d_4 by lia. rewrite !format_0d_2 by lia. reflexivity.
Qed.

(** X9: for a date of the years 1980..2107 with a valid month, day of month
    and time of day, [CopyFromDateTimeString] on its string
    [YYYY-MM-DD hh:mm:ss] succeeds on any instance, and on the instance it
    leaves [CopyToDateTimeString] returns the same string and [GetDate] the
    same year, month and day. *)
Theorem X9_string_read_back
    (year month day_of_month hours minutes seconds : Z)
    (self : FATDateTime) :
  1980 <= year <= 2107 -> 1 <= month <= 12 ->
  1 <= day_of_month <= days_per_month_value (_IsLeapYear year) month ->
  0 <= hours < 24 -> 0 <= minutes < 60 -> 0 <= seconds < 60 ->
  exists self',
    CopyFromDateTimeString
      (canonical_string year month day_of_month hours minutes seconds) self
    = (Ok tt, self')
    /\ CopyToDateTimeString self'
       = (Ok (Some (canonical_string year month day_of_month hours minutes
                      seconds)), self')
    /\ GetDate self' = (Ok (Some year, Some month, Some day_of_month), self').
Proof.
  intros Hy Hm Hd Hh Hi Hs.
  pose proof (days_per_month_value_bounds (_IsLeapYear year) month Hm).
  eexists. split.
  - apply CopyFromDateTimeString_canonical; lia.
  - destruct (readouts_of_date year month day_of_month hours minutes seconds
                {| _number_of_seconds :=
                     Some (seconds_since_1980 year month day_of_month hours
                             minutes seconds);
                   precision := precision self;
                   is_local_time := false |} Hy Hm Hd Hh Hi Hs eq_refl)
      as [Hdate Hstring].
    split; assumption.
Qed.

Lemma X9_string_read_back_witness :
  exists self',
    CopyFromDateTimeString "2010-06-15 12:30:45" unset = (Ok tt, self')
    /\ CopyToDateTimeString self'
       = (Ok (Some "2010-06-15 12:30:45"%string), self')
    /\ GetDate self' = (Ok (Some 2010, Some 6, Some 15), self').
Proof.
  refine (X9_string_read_back 2010 6 15 12 30 45 unset _ _ _ _ _ _);
    try lia.
  vm_compute. split; discriminate.
Defined.

(** ** A date without a time of day *)

Lemma _CopyDateTimeFromString_date_shape
    (y0 y1 y2 y3 m0 m1 d0 d1 : ascii) (year month day_of_month : Z) :
  int_of_string (String y0 (String y1 (String y2 (String y3 "")))) "year"
  = Ok year ->
  int_of_string (String m0 (String m1 "")) "month" = Ok month ->
  int_of_string (String d0 (String d1 "")) "day of month"
  = Ok day_of_month ->
  _CopyDateTimeFromString
    (String y0 (String y1 (String y2 (String y3 (String "-"
    (String m0 (String m1 (String "-" (String d0 (String d1 ""))))))))))
  = Ok (canonical_date_values year month day_of_month).
Proof.
  intros Hy Hm Hd.
  unfold _CopyDateTimeFromString, _CopyDateFromString.
  cbn [String.length Nat.ltb Nat.leb Nat.eqb char_is String.get slice
       substring Nat.sub Ascii.eqb Bool.eqb negb andb].
  rewrite Hy, Hm, Hd. reflexivity.
Qed.

Lemma _CopyDateTimeFromString_date (year month day_of_month : Z) :
  0 <= year < 10000 -> 0 <= month < 100 -> 0 <= day_of_month < 100 ->
  _CopyDateTimeFromString (canonical_date_string year month day_of_month)
  = Ok (canonical_date_values year month day_of_month).
Proof.
  intros Hy Hm Hd.
  apply _CopyDateTimeFromString_date_shape.
  - apply int_of_string_digits; [discriminate|].
    exact (parse_four_digits year Hy).
  - apply int_of_string_digits; [discriminate|].
    exact (parse_two_digits month Hm).
  - apply int_of_string_digits; [discriminate|].
    exact (parse_two_digits day_of_month Hd).
Qed.

Lemma canonical_date_values_lookup (year month day_of_month : Z) :
  let values := canonical_date_values year month day_of_month in
  get_or_zero values "year" = year
  /\ get_or_zero values "month" = month
  /\ get_or_zero values "day_of_month" = day_of_month
  /\ get_or_zero values "hours" = 0
  /\ get_or_zero values "minutes" = 0
  /\ get_or_zero values "seconds" = 0.
Proof.
  unfold get_or_zero, canonical_date_values. cbv zeta.
  repeat split; simplify_map_eq; reflexivity.
Qed.

(** X10: the fields that the parsed string does not give are read as 0: on
    any instance, [CopyFromDateTimeString] does with a date [YYYY-MM-DD]
    what it does with that date followed by [00:00:00], the year check
    included. *)
Theorem X10_date_only_is_midnight (year month day_of_month : Z)
    (self : FATDateTime) :
  0 <= year < 10000 -> 0 <= month < 100 -> 0 <= day_of_month < 100 ->
  CopyFromDateTimeString (canonical_date_string year month day_of_month)
    self
  = CopyFromDateTimeString
      (canonical_string year month day_of_month 0 0 0) self.
Proof.
  intros Hy Hm Hd. rewrite !CopyFromDateTimeString_eq.
  rewrite _CopyDateTimeFromString_date by assumption.
  rewrite _CopyDateTimeFromString_canonical by lia.
  destruct (canonical_date_values_lookup year month day_of_month)
    as (-> & -> & -> & -> & -> & ->).
  destruct (canonical_values_lookup year month day_of_month 0 0 0)
    as (-> & -> & -> & -> & -> & ->).
  reflexivity.
Qed.

Lemma X10_date_only_is_midnight_witness :
  CopyFromDateTimeString "2010-06-15" unset
  = CopyFromDateTimeString "2010-06-15 00:00:00" unset.
Proof.
  refine (X10_date_only_is_midnight 2010 6 15 unset _ _ _); lia.
Defined.

(** ** The POSIX readouts *)

(** X11: after a successful [CopyFromDateTimeString] the instance holds the
    seconds computed from the calendar elements less the FAT base, and when
    these seconds are at least the base the two POSIX readouts add it back:
    [CopyToStatTimeTuple] returns them with [None] and [GetPlasoTimestamp]
    returns them times 1000000. *)
Theorem X11_posix_readouts_after_copy (time_string : string)
    (self self' : FATDateTime) :
  CopyFromDateTimeString time_string self = (Ok tt, self') ->
  exists values n,
    _CopyDateTimeFromString time_string = Ok values
    /\ _GetNumberOfSecondsFromElements (get_or_zero values "year")
         (get_or_zero values "month") (get_or_zero values "day_of_month")
         (get_or_zero values "hours") (get_or_zero values "minutes")
         (get_or_zero values "seconds") = Ok n
    /\ _number_of_seconds self' = Some (n - 315532800)
    /\ (315532800 <= n ->
        CopyToStatTimeTuple self' = (Ok (Some n, None), self')
        /\ GetPlasoTimestamp self' = (Ok (Some (1000000 * n)), self'))
    /\ (n < 315532800 ->
        CopyToStatTimeTuple self' = (Ok (None, None), self')
        /\ GetPlasoTimestamp self' = (Ok None, self')).
Proof.
  rewrite CopyFromDateTimeString_eq.
  destruct (_CopyDateTimeFromString time_string) as [values|e];
    [|discriminate].
  cbv zeta. destruct ((_ <? 1980) || _); [discriminate|].
  destruct (_GetNumberOfSecondsFromElements _ _ _ _ _ _) as [n|e] eqn:Hn;
    [|discriminate].
  intros H. injection H as <-. exists values, n.
  split; [reflexivity|]. split; [exact Hn|]. split; [reflexivity|].
  rewrite CopyToStatTimeTuple_eq, GetPlasoTimestamp_eq.
  cbn [_number_of_seconds].
  unfold _FAT_DATE_TO_POSIX_BASE, MICROSECONDS_PER_SECOND.
  split; intros Hbase.
  - replace (n - 315532800 <? 0) with false by (symmetry; lia).
    replace (n - 315532800 + 315532800) with n by lia.
    split; reflexivity.
  - replace (n - 315532800 <? 0) with true by (symmetry; lia).
    split; reflexivity.
Qed.

Lemma X11_posix_readouts_after_copy_witness :
  exists values n,
    _CopyDateTimeFromString "2010-06-15 12:30:45" = Ok values
    /\ _GetNumberOfSecondsFromElements (get_or_zero values "year")
         (get_or_zero values "month") (get_or_zero values "day_of_month")
         (get_or_zero values "hours") (get_or_zero values "minutes")
         (get_or_zero values "seconds") = Ok n
    /\ _number_of_seconds
         {| _number_of_seconds := Some 961072245;
            precision := Some PRECISION_2_SECONDS;
            is_local_time := false |} = Some (n - 315532800)
    /\ (315532800 <= n ->
        CopyToStatTimeTuple
          {| _number_of_seconds := Some 961072245;
             precision := Some PRECISION_2_SECONDS;
             is_local_time := false |}
        = (Ok (Some n, None),
           {| _number_of_seconds := Some 961072245;
              precision := Some PRECISION_2_SECONDS;
              is_local_time := false |})
        /\ GetPlasoTimestamp
             {| _number_of_seconds := Some 961072245;
                precision := Some PRECISION_2_SECONDS;
                is_local_time := false |}
           = (Ok (Some (1000000 * n)),
              {| _number_of_seconds := Some 961072245;
                 precision := Some PRECISION_2_SECONDS;
                 is_local_time := false |}))
    /\ (n < 315532800 ->
        CopyToStatTimeTuple
          {| _number_of_seconds := Some 961072245;
             precision := Some PRECISION_2_SECONDS;
             is_local_time := false |}
        = (Ok (None, None),
           {| _number_of_seconds := Some 961072245;
              precision := Some PRECISION_2_SECONDS;
              is_local_time := false |})
        /\ GetPlasoTimestamp
             {| _number_of_seconds := Some 961072245;
                precision := Some PRECISION_2_SECONDS;
                is_local_time := false |}
           = (Ok None,
              {| _number_of_seconds := Some 961072245;
                 precision := Some PRECISION_2_SECONDS;
                 is_local_time := false |})).
Proof.
  refine (X11_posix_readouts_after_copy "2010-06-15 12:30:45" unset _ _).
  vm_compute. reflexivity.
Defined.

(** X12: after a decoding that succeeds the POSIX readouts never return
    their sentinels: [CopyToStatTimeTuple] returns the decoded seconds plus
    315532800, between 315532800 and 4354819198, paired with [None], and
    [GetPlasoTimestamp] returns 1000000 times these seconds. *)
Theorem X12_posix_readouts_after_decode (v : Z) (self : FATDateTime) :
  __init__ (Some v) = Ok self ->
  exists n,
    _GetNumberOfSeconds v = Ok n
    /\ 315532800 <= n + 315532800 <= 4354819198
    /\ CopyToStatTimeTuple self = (Ok (Some (n + 315532800), None), self)
    /\ GetPlasoTimestamp self
       = (Ok (Some (1000000 * (n + 315532800))), self).
Proof.
  intros Hinit. unfold __init__ in Hinit.
  destruct (_GetNumberOfSeconds v) as [n|e] eqn:Hdecode; [|discriminate].
  cbn [result_bind] in Hinit. injection Hinit as <-.
  destruct (_GetNumberOfSeconds_inv v n Hdecode)
    as (nd & Hdays & Hh & Hi & Hs & Hn).
  pose proof (_GetNumberOfSeconds_days_nonneg v nd Hdays) as Hlo.
  pose proof (_GetNumberOfSeconds_days_upper v nd Hdays) as Hhi.
  pose proof (packed_hours_bounds v). pose proof (packed_minutes_bounds v).
  pose proof (packed_seconds_bounds v).
  exists n. split; [reflexivity|].
  split; [unfold packed_seconds in *; lia|].
  rewrite CopyToStatTimeTuple_eq, GetPlasoTimestamp_eq.
  cbn [_number_of_seconds].
  replace (n <? 0) with false by (symmetry; lia).
  split; reflexivity.
Qed.

Lemma X12_posix_readouts_after_decode_witness :
  exists n,
    _GetNumberOfSeconds 0x21 = Ok n
    /\ 315532800 <= n + 315532800 <= 4354819198
    /\ CopyToStatTimeTuple
         {| _number_of_seconds := Some 0;
            precision := Some PRECISION_2_SECONDS; is_local_time := false |}
       = (Ok (Some (n + 315532800), None),
          {| _number_of_seconds := Some 0;
             precision := Some PRECISION_2_SECONDS;
             is_local_time := false |})
    /\ GetPlasoTimestamp
         {| _number_of_seconds := Some 0;
            precision := Some PRECISION_2_SECONDS; is_local_time := false |}
       = (Ok (Some (1000000 * (n + 315532800))),
          {| _number_of_seconds := Some 0;
             precision := Some PRECISION_2_SECONDS;
             is_local_time := false |}).
Proof.
  refine (X12_posix_readouts_after_decode 0x21 _ _). reflexivity.
Defined.

(** ** Copying twice *)

(** X13: the last [CopyFromDateTimeString] that succeeds decides the
    instance: whether a string is accepted does not depend on the instance,
    and after any earlier copy, accepted or not, the instance left by an
    accepted string is the one it leaves when called alone. *)
Theorem X13_last_copy_wins (first second : string) (self : FATDateTime) :
  fst (CopyFromDateTimeString second self) = Ok tt ->
  CopyFromDateTimeString second (snd (CopyFromDateTimeString first self))
  = CopyFromDateTimeString second self.
Proof.
  intros Hsecond.
  assert (Hprecision :
            precision (snd (CopyFromDateTimeString first self))
            = precision self).
  { rewrite (CopyFromDateTimeString_eq first).
    destruct (_CopyDateTimeFromString first) as [values|e]; [|reflexivity].
    cbv zeta. destruct ((_ <? 1980) || _); [reflexivity|].
    destruct (_GetNumberOfSecondsFromElements _ _ _ _ _ _); reflexivity. }
  revert Hsecond. rewrite !(CopyFromDateTimeString_eq second).
  destruct (_CopyDateTimeFromString second) as [values|e]; [|discriminate].
  cbv zeta. destruct ((_ <? 1980) || _); [discriminate|].
  destruct (_GetNumberOfSecondsFromElements _ _ _ _ _ _); [|discriminate].
  intros _. rewrite Hprecision. reflexivity.
Qed.

Lemma X13_last_copy_wins_witness :
  CopyFromDateTimeString "2010-06-15 12:30:45"
    (snd (CopyFromDateTimeString "1999-12-31 23:59:59" unset))
  = CopyFromDateTimeString "2010-06-15 12:30:45" unset.
Proof.
  refine (X13_last_copy_wins "1999-12-31 23:59:59" "2010-06-15 12:30:45"
            unset _).
  vm_compute. reflexivity.
Defined.

(** ** The leap day *)

Lemma leap_of_year_field_xor (year : Z) :
  0 <= year < 128 ->
  _IsLeapYear year
  = xorb (_IsLeapYear (1980 + year)) ((year =? 100) || (year =? 120)).
Proof.
  apply (Forall_range_check
           (fun year =>
              _IsLeapYear year
              = xorb (_IsLeapYear (1980 + year))
                  ((year =? 100) || (year =? 120)))
           (fun year =>
              Bool.eqb (_IsLeapYear year)
                (xorb (_IsLeapYear (1980 + year))
                   ((year =? 100) || (year =? 120))))).
  - intros k. apply Bool.eqb_prop.
  - vm_compute. reflexivity.
Qed.

(** X14: with a valid time of day and a year field other than 120, a packed
    29 February decodes exactly when the calendar year [1980 + year] is a
    leap year, with one exception: it is rejected for the year field 100,
    although 2080 is a leap year. *)
Theorem X14_leap_day_check (v : Z) :
  packed_month v = 2 -> packed_day_of_month v = 29 ->
  packed_year v <> 120 ->
  packed_hours v <= 23 -> packed_minutes v <= 59 -> packed_seconds v <= 59 ->
  ((exists n, _GetNumberOfSeconds v = Ok n)
   <-> _IsLeapYear (1980 + packed_year v) = true /\ packed_year v <> 100).
Proof.
  intros Hm Hd Hy Hh Hi Hs.
  rewrite _GetNumberOfSeconds_succeeds_iff.
  rewrite (leap_of_year_field_xor (packed_year v) (packed_year_bounds v)).
  rewrite Hm, Hd.
  destruct (Z.eqb_spec (packed_year v) 120) as [H120|_]; [contradiction|].
  rewrite orb_false_r.
  destruct (Z.eqb_spec (packed_year v) 100) as [H100|H100].
  - rewrite H100. change (_IsLeapYear (1980 + 100)) with true.
    cbn [xorb negb]. change (days_per_month_value false 2) with 28.
    split; [lia|]. intros [_ Hne]. contradiction.
  - rewrite xorb_false_r.
    destruct (_IsLeapYear (1980 + packed_year v)).
    + change (days_per_month_value true 2) with 29.
      split; [intros _; split; [reflexivity|assumption]|].
      intros _. repeat split; lia.
    + change (days_per_month_value false 2) with 28. split; [lia|].
      intros [Hfalse _]. discriminate.
Qed.

(** 2080-02-29 00:00:00 is rejected. *)
Lemma X14_leap_day_check_witness :
  packed_year 0xC85D = 100
  /\ _IsLeapYear (1980 + 100) = true
  /\ _GetNumberOfSeconds 0xC85D
     = Raise (ValueError "Day of month value out of bounds.")
  /\ ((exists n, _GetNumberOfSeconds 0xC85D = Ok n)
      <-> _IsLeapYear (1980 + packed_year 0xC85D) = true
          /\ packed_year 0xC85D <> 100).
Proof.
  split; [reflexivity|]. split; [reflexivity|]. split; [reflexivity|].
  refine (X14_leap_day_check 0xC85D _ _ _ _ _ _);
    vm_compute; try reflexivity; discriminate.
Defined.
